(** * LawChain AI backend: case, document and hearing records

    A shallow embedding of the request handlers of [main.py] and [app.py]
    (FastAPI over an Oracle schema through [oracledb]) and of the content
    hasher they call ([hashlib.sha256(...).hexdigest()]).

    Layout:
    - [Py]       Python values the handlers manipulate: exceptions, [str(e)],
                 [datetime.isoformat()], f-strings with decimal numbers;
    - [Hashlib]  SHA-256 (FIPS 180-4) and [hexdigest];
    - [Oracle]   the three tables of [init_database] with their constraints,
                 the SQL statements the handlers issue, and the connection
                 (connect / execute / commit / rollback / close);
    - [Handler]  the monad of a request handler: state of the request plus
                 Python exceptions, with [try/except/finally];
    - [Main], [App]  the handlers of the two entry points;
    - the properties of the handlers. *)

From Stdlib Require Import ZArith NArith List String Ascii Bool Lia.
From Stdlib Require Import Strings.Byte DecimalString Sorting.Sorted Permutation.
Import ListNotations.

#[local] Open Scope string_scope.
#[local] Open Scope Z_scope.

(* ===================================================================== *)
(** * Python values *)
(* ===================================================================== *)

Module Py.

(** Exceptions that reach a handler's [except] clauses: the driver's
    [oracledb.Error] family (carrying the engine's message text), FastAPI's
    [HTTPException(status_code, detail)], and the interpreter's [TypeError]. *)
Inductive exn : Type :=
| DatabaseError (msg : string)
| HTTPException (status_code : Z) (detail : string)
| TypeError (msg : string).

(** [str(n)] for an integer. *)
Definition str_int (n : Z) : string :=
  match n with
  | Z0 => "0"
  | Zpos p => NilZero.string_of_uint (Pos.to_uint p)
  | Zneg p => "-" ++ NilZero.string_of_uint (Pos.to_uint p)
  end.

(** [str(e)]: the driver's exceptions print their message;
    [HTTPException.__str__] is [f"{status_code}: {detail}"]. *)
Definition str (e : exn) : string :=
  match e with
  | DatabaseError msg => msg
  | HTTPException code detail => str_int code ++ ": " ++ detail
  | TypeError msg => msg
  end.

(** [isinstance(e, HTTPException)] *)
Definition is_HTTPException (e : exn) : bool :=
  match e with HTTPException _ _ => true | _ => false end.

(** [datetime.datetime]: what the driver returns for TIMESTAMP and DATE
    columns. *)
Record datetime : Type := mk_datetime {
  year : N; month : N; day : N;
  hour : N; minute : N; second : N; microsecond : N }.

(** ["%0<width>d" % n] *)
Definition zfill (width : nat) (s : string) : string :=
  string_of_list_ascii
    (repeat "0"%char (width - String.length s)) ++ s.

Definition dec (width : nat) (n : N) : string :=
  zfill width (NilZero.string_of_uint (N.to_uint n)).

(** [datetime.isoformat()]: ["YYYY-MM-DDTHH:MM:SS"], followed by
    [".ffffff"] when the microsecond field is not zero. *)
Definition isoformat (d : datetime) : string :=
  dec 4 (year d) ++ "-" ++ dec 2 (month d) ++ "-" ++ dec 2 (day d) ++ "T" ++
  dec 2 (hour d) ++ ":" ++ dec 2 (minute d) ++ ":" ++ dec 2 (second d) ++
  (if (microsecond d =? 0)%N then EmptyString else "." ++ dec 6 (microsecond d)).

(** [x.isoformat() if x else None]; a [datetime] object is always truthy. *)
Definition isoformat_or_None (x : option datetime) : option string :=
  match x with Some d => Some (isoformat d) | None => None end.

(** [v or 0] on a number that may be [None]. *)
Definition or_0 (v : option Z) : Z :=
  match v with
  | Some x => if x =? 0 then 0 else x
  | None => 0
  end.

(** [f"{v}"] for a value that may be [None]. *)
Definition format_value (v : option string) : string :=
  match v with Some s => s | None => "None" end.

(** The newline character of a string literal. *)
Definition nl : string := String (ascii_of_nat 10) EmptyString.

(** [if s:] on a string. *)
Definition truthy (s : string) : bool :=
  match s with EmptyString => false | String _ _ => true end.

End Py.

(* ===================================================================== *)
(** * [hashlib.sha256(content).hexdigest()] *)
(* ===================================================================== *)

Module Hashlib.

(** 32-bit words are integers in [0, 2^32); addition wraps around. *)
Definition mask32 : Z := 0xFFFFFFFF.
Definition add32 (x y : Z) : Z := Z.land (x + y) mask32.
Definition rotr (n x : Z) : Z :=
  Z.lor (Z.shiftr x n) (Z.land (Z.shiftl x (32 - n)) mask32).
Definition not32 (x : Z) : Z := Z.lxor x mask32.

Definition Ch (x y z : Z) : Z := Z.lxor (Z.land x y) (Z.land (not32 x) z).
Definition Maj (x y z : Z) : Z :=
  Z.lxor (Z.lxor (Z.land x y) (Z.land x z)) (Z.land y z).
Definition Sigma0 (x : Z) : Z :=
  Z.lxor (Z.lxor (rotr 2 x) (rotr 13 x)) (rotr 22 x).
Definition Sigma1 (x : Z) : Z :=
  Z.lxor (Z.lxor (rotr 6 x) (rotr 11 x)) (rotr 25 x).
Definition sigma0 (x : Z) : Z :=
  Z.lxor (Z.lxor (rotr 7 x) (rotr 18 x)) (Z.shiftr x 3).
Definition sigma1 (x : Z) : Z :=
  Z.lxor (Z.lxor (rotr 17 x) (rotr 19 x)) (Z.shiftr x 10).

(** The constants of the standard are fractional parts of roots of the
    first primes: the sixty-four round constants are the first thirty-two
    bits of the fractional parts of the cube roots of the first sixty-four
    primes, the eight initial chaining words those of the square roots of
    the first eight. *)
Definition is_prime (n : Z) : bool :=
  forallb (fun d => negb (n mod d =? 0))
          (map Z.of_nat (seq 2 (Z.to_nat n - 2))).

Definition primes : list Z := filter is_prime (map Z.of_nat (seq 2 310)).

(** The integer cube root of [x], built from bit [n - 1] down. *)
Fixpoint cbrt_bits (n : nat) (x r : Z) : Z :=
  match n with
  | O => r
  | S n' =>
      let c := Z.lor r (Z.shiftl 1 (Z.of_nat n')) in
      if c * c * c <=? x then cbrt_bits n' x c else cbrt_bits n' x r
  end.

Definition frac_cbrt32 (p : Z) : Z :=
  Z.land (cbrt_bits 36 (Z.shiftl p 96) 0) mask32.

Definition frac_sqrt32 (p : Z) : Z :=
  Z.land (Z.sqrt (Z.shiftl p 64)) mask32.

Definition K : list Z := Eval vm_compute in map frac_cbrt32 primes.

(** The eight chaining words. *)
Record state : Type := mk_state {
  ha : Z; hb : Z; hc : Z; hd : Z; he : Z; hf : Z; hg : Z; hh : Z }.

Definition initial_state : state :=
  Eval vm_compute in
    match map frac_sqrt32 (firstn 8 primes) with
    | [a; b; c; d; e; f; g; h] => mk_state a b c d e f g h
    | _ => mk_state 0 0 0 0 0 0 0 0
    end.

(** Padding: the byte 0x80, zero bytes up to 56 modulo 64, then the length
    of the message in bits as a 64-bit big-endian number. *)
Definition be_bytes (width : nat) (x : Z) : list Z :=
  map (fun i => Z.land (Z.shiftr x (8 * Z.of_nat i)) 0xFF)
      (rev (seq 0 width)).

Definition pad (msg : list Z) : list Z :=
  let len := Z.of_nat (List.length msg) in
  msg ++ [0x80] ++ repeat 0 (Z.to_nat ((55 - len) mod 64))
      ++ be_bytes 8 (Z.land (8 * len) 0xFFFFFFFFFFFFFFFF).

(** Big-endian 32-bit words of a byte sequence. *)
Fixpoint words (bs : list Z) : list Z :=
  match bs with
  | b0 :: b1 :: b2 :: b3 :: rest =>
      Z.lor (Z.lor (Z.lor (Z.shiftl b0 24) (Z.shiftl b1 16)) (Z.shiftl b2 8)) b3
      :: words rest
  | _ => []
  end.

(** Blocks of sixteen words; [n] bounds the number of blocks. *)
Fixpoint blocks (n : nat) (ws : list Z) : list (list Z) :=
  match n, ws with
  | O, _ | _, [] => []
  | S n', _ => firstn 16 ws :: blocks n' (skipn 16 ws)
  end.

(** Message schedule: sixteen words of the block, then forty-eight derived
    ones. *)
Definition schedule_step (w : list Z) : list Z :=
  let t := List.length w in
  let at_ (k : nat) := nth (t - k) w 0 in
  w ++ [add32 (add32 (add32 (sigma1 (at_ 2%nat)) (at_ 7%nat))
                     (sigma0 (at_ 15%nat))) (at_ 16%nat)].

Definition schedule (block : list Z) : list Z :=
  Nat.iter 48 schedule_step block.

Definition round (s : state) (kw : Z * Z) : state :=
  let (k, w) := kw in
  let t1 := add32 (add32 (add32 (add32 (hh s) (Sigma1 (he s)))
                                (Ch (he s) (hf s) (hg s))) k) w in
  let t2 := add32 (Sigma0 (ha s)) (Maj (ha s) (hb s) (hc s)) in
  mk_state (add32 t1 t2) (ha s) (hb s) (hc s)
           (add32 (hd s) t1) (he s) (hf s) (hg s).

Definition compress (h : state) (block : list Z) : state :=
  let s := fold_left round (combine K (schedule block)) h in
  mk_state (add32 (ha h) (ha s)) (add32 (hb h) (hb s))
           (add32 (hc h) (hc s)) (add32 (hd h) (hd s))
           (add32 (he h) (he s)) (add32 (hf h) (hf s))
           (add32 (hg h) (hg s)) (add32 (hh h) (hh s)).

Definition byte_val (b : byte) : Z := Z.of_N (Byte.to_N b).

(** [hashlib.sha256(content).digest()]: thirty-two bytes. *)
Definition sha256 (content : list byte) : list Z :=
  let ws := words (pad (map byte_val content)) in
  let h := fold_left compress (blocks (List.length ws) ws) initial_state in
  flat_map (be_bytes 4)
    [ha h; hb h; hc h; hd h; he h; hf h; hg h; hh h].

(** Two lowercase hexadecimal digits per byte. *)
Definition hex_digit (n : Z) : ascii :=
  nth (Z.to_nat (Z.land n 0xF))
      (list_ascii_of_string "0123456789abcdef") "0"%char.

Definition hex (bs : list Z) : string :=
  string_of_list_ascii
    (flat_map (fun b => [hex_digit (Z.shiftr b 4); hex_digit b]) bs).

Definition hexdigest (content : list byte) : string := hex (sha256 content).

End Hashlib.

(* ===================================================================== *)
(** * The Oracle schema and the statements issued against it *)
(* ===================================================================== *)

Module Oracle.

(** ** Column values and SQL conditions

    A nullable column is an [option]; a condition is three-valued, with
    [None] for UNKNOWN, and a WHERE clause keeps the rows on which it is
    TRUE. *)

Definition sql_or (a b : option bool) : option bool :=
  match a, b with
  | Some true, _ | _, Some true => Some true
  | Some false, Some false => Some false
  | _, _ => None
  end.

Definition is_true (c : option bool) : bool :=
  match c with Some true => true | _ => false end.

(** [col = :1] on a NUMBER column, [col = 'literal'] on a VARCHAR2 one. *)
Definition eq_number (col : option Z) (v : Z) : option bool :=
  option_map (fun x => x =? v) col.

Definition eq_varchar (col : option string) (v : string) : option bool :=
  option_map (fun s => String.eqb s v) col.

(** [UPPER]: the letters a..z to A..Z, every other character kept. *)
Definition upper_char (c : ascii) : ascii :=
  let n := N_of_ascii c in
  if ((97 <=? n) && (n <=? 122))%N then ascii_of_N (n - 32) else c.

Definition UPPER (s : option string) : option string :=
  option_map (fun x => string_of_list_ascii
                         (map upper_char (list_ascii_of_string x))) s.

(** [LIKE] without ESCAPE: in the pattern [%] stands for any run of
    characters, the empty one too, [_] for exactly one character, every other
    character for itself. *)
Fixpoint like (p : list ascii) : list ascii -> bool :=
  match p with
  | [] => fun s => match s with [] => true | _ :: _ => false end
  | c :: p' =>
      if Ascii.eqb c "%" then
        fix star (s : list ascii) : bool :=
          like p' s || match s with [] => false | _ :: s' => star s' end
      else
        fun s => match s with
                 | [] => false
                 | x :: s' => (Ascii.eqb c "_" || Ascii.eqb c x) && like p' s'
                 end
  end.

Definition LIKE (s p : option string) : option bool :=
  match s, p with
  | Some s, Some p =>
      Some (like (list_ascii_of_string p) (list_ascii_of_string s))
  | _, _ => None
  end.

(** [SUM(...)] is NULL over no rows. *)
Definition SUM (l : list Z) : option Z :=
  match l with [] => None | _ :: _ => Some (fold_right Z.add 0 l) end.

(** [COUNT( * )] *)
Definition COUNT {A} (l : list A) : Z := Z.of_nat (List.length l).

(** ** Ordering of TIMESTAMP values

    [ORDER BY col DESC] puts NULLs first and larger values before smaller
    ones; rows with equal keys keep their table order here (the engine does
    not promise any order among them). *)
Definition dt_key (d : Py.datetime) : list N :=
  [Py.year d; Py.month d; Py.day d;
   Py.hour d; Py.minute d; Py.second d; Py.microsecond d].

Fixpoint lex_leb (a b : list N) : bool :=
  match a, b with
  | [], _ => true
  | _ :: _, [] => false
  | x :: a', y :: b' =>
      if (x <? y)%N then true else if (y <? x)%N then false else lex_leb a' b'
  end.

Definition dt_leb (a b : Py.datetime) : bool := lex_leb (dt_key a) (dt_key b).

(** [desc_leb a b]: a key [a] may stand before [b] under DESC. *)
Definition desc_leb (a b : option Py.datetime) : bool :=
  match a, b with
  | None, _ => true
  | Some _, None => false
  | Some x, Some y => dt_leb y x
  end.

Section OrderBy.
Context {A : Type} (key : A -> option Py.datetime).

Fixpoint insert_desc (x : A) (l : list A) : list A :=
  match l with
  | [] => [x]
  | y :: l' =>
      if desc_leb (key y) (key x) then y :: insert_desc x l' else x :: l
  end.

Definition ORDER_BY_DESC (l : list A) : list A :=
  fold_left (fun acc x => insert_desc x acc) l [].
End OrderBy.

(** ** The tables of [init_database] *)

Module cases.
Record row : Type := mk {
  case_id : Z;                          (* NUMBER IDENTITY PRIMARY KEY *)
  case_title : option string;           (* VARCHAR2(500) *)
  client_name : option string;          (* VARCHAR2(200) *)
  client_email : option string;         (* VARCHAR2(200) *)
  client_address : option string;       (* VARCHAR2(500) *)
  lawyer_name : option string;          (* VARCHAR2(200) *)
  lawyer_email : option string;         (* VARCHAR2(200) *)
  case_type : option string;            (* VARCHAR2(100) *)
  description : option string;          (* CLOB *)
  client_wallet : option string;        (* VARCHAR2(100) *)
  lawyer_wallet : option string;        (* VARCHAR2(100) *)
  blockchain_tx : option string;        (* VARCHAR2(200) *)
  status : option string;               (* VARCHAR2(50) DEFAULT 'Active' *)
  created_at : option Py.datetime       (* TIMESTAMP DEFAULT CURRENT_TIMESTAMP *)
}.
End cases.

Module documents.
Record row : Type := mk {
  doc_id : Z;                           (* NUMBER IDENTITY PRIMARY KEY *)
  case_id : option Z;                   (* NUMBER REFERENCES cases(case_id) *)
  document_name : option string;        (* VARCHAR2(300) *)
  document_hash : option string;        (* VARCHAR2(200) UNIQUE *)
  document_type : option string;        (* VARCHAR2(100) *)
  uploaded_by : option string;          (* VARCHAR2(200) *)
  blockchain_tx : option string;        (* VARCHAR2(200) *)
  uploaded_at : option Py.datetime      (* TIMESTAMP DEFAULT CURRENT_TIMESTAMP *)
}.
End documents.

Module hearings.
Record row : Type := mk {
  hearing_id : Z;                       (* NUMBER IDENTITY PRIMARY KEY *)
  case_id : option Z;                   (* NUMBER REFERENCES cases(case_id) *)
  hearing_date : option Py.datetime;    (* DATE *)
  hearing_time : option string;         (* VARCHAR2(20) *)
  court_name : option string;           (* VARCHAR2(300) *)
  notes : option string;                (* CLOB *)
  created_at : option Py.datetime       (* TIMESTAMP DEFAULT CURRENT_TIMESTAMP *)
}.
End hearings.

Record Tables : Type := mk_tables {
  CASES : list cases.row;
  DOCUMENTS : list documents.row;
  HEARINGS : list hearings.row }.

(** What the engine keeps outside any transaction: the identity sequences
    (a rollback does not give a drawn value back) and its clock. *)
Record Engine : Type := mk_engine {
  cases_seq : Z;
  documents_seq : Z;
  current_timestamp : Py.datetime }.

(** A statement runs on the engine and on the tables as the open transaction
    sees them; it yields an error text and leaves the tables alone, or new
    tables and its result. *)
Definition Statement (A : Type) : Type :=
  Engine -> Tables -> Engine * (string + Tables * A).

Definition ORA_00001 : string := "ORA-00001: unique constraint violated".
Definition ORA_02291 : string :=
  "ORA-02291: integrity constraint violated - parent key not found".
Definition ORA_02292 : string :=
  "ORA-02292: integrity constraint violated - child record found".

Definition case_exists (t : Tables) (id : Z) : bool :=
  existsb (fun r => cases.case_id r =? id) (CASES t).

Definition hash_exists (t : Tables) (h : string) : bool :=
  existsb (fun d => is_true (eq_varchar (documents.document_hash d) h))
          (DOCUMENTS t).

(** A row of [documents] or [hearings] referring to case [id]. *)
Definition has_children (t : Tables) (id : Z) : bool :=
  existsb (fun d => is_true (eq_number (documents.case_id d) id)) (DOCUMENTS t)
  || existsb (fun h => is_true (eq_number (hearings.case_id h) id)) (HEARINGS t).

End Oracle.

(* ===================================================================== *)
(** * Request handlers: state, exceptions, [try/except/finally] *)
(* ===================================================================== *)

Module Handler.
Import Oracle.

Inductive Verb : Type := INSERT | SELECT | UPDATE | DELETE.
Inductive TableName : Type := T_CASES | T_DOCUMENTS | T_HEARINGS.

(** What a handler does to the driver, in order. *)
Inductive Event : Type :=
| Connect
| Execute (v : Verb) (t : TableName)
| Commit
| Rollback
| CursorClose
| Close.

(** The world of one request.  [committed] is what every other connection
    sees; [faults] is what the driver will report at each of the coming calls
    of the [try] body that can fail ([oracledb.connect], [cursor.execute],
    [conn.commit]), in order: [Some msg] raises a driver error with that
    text, [None] (or no entry left) lets the call through.
    [rollback_fault] is what the driver will report at the [conn.rollback()]
    of an [except] clause, should the handler come to call it: that call is
    a call to the driver like the others and raises like them.  [conn] and
    [cursor] are the handler's two local variables, [None] until assigned; an
    assigned [conn] holds the tables as the transaction of the connection
    sees them. *)
Record World : Type := mk_world {
  committed : Tables;
  engine : Engine;
  faults : list (option string);
  rollback_fault : option string;
  conn : option Tables;
  cursor : bool;
  trace : list Event }.

(** A request, with what the driver will report during it. *)
Definition request_with (db : Tables) (eng : Engine)
                        (fs : list (option string)) (rb : option string)
  : World :=
  mk_world db eng fs rb None false [].

(** A request during which [conn.rollback()], if called, goes through. *)
Definition request (db : Tables) (eng : Engine) (fs : list (option string))
  : World :=
  request_with db eng fs None.

Inductive Outcome (A : Type) : Type :=
| Return (a : A)
| Raise (e : Py.exn).
Arguments Return {A} a.
Arguments Raise {A} e.

Definition M (A : Type) : Type := World -> Outcome A * World.

Definition ret {A} (a : A) : M A := fun w => (Return a, w).

Definition bind {A B} (m : M A) (k : A -> M B) : M B :=
  fun w => match m w with
           | (Return a, w') => k a w'
           | (Raise e, w') => (Raise e, w')
           end.

Definition raise {A} (e : Py.exn) : M A := fun w => (Raise e, w).

(** [try: body / except Exception as e: handler e] *)
Definition try_except {A} (body : M A) (handler : Py.exn -> M A) : M A :=
  fun w => match body w with
           | (Return a, w') => (Return a, w')
           | (Raise e, w') => handler e w'
           end.

(** [try: body / finally: final] *)
Definition try_finally {A} (body : M A) (final : M unit) : M A :=
  fun w => match body w with
           | (o, w') =>
               match final w' with
               | (Return _, w'') => (o, w'')
               | (Raise e, w'') => (Raise e, w'')
               end
           end.

Declare Scope handler_scope.
Delimit Scope handler_scope with handler.
Notation "x <- m ;; k" := (bind m (fun x => k))
  (at level 61, m at next level, right associativity) : handler_scope.
Notation "m ;; k" := (bind m (fun _ => k))
  (at level 61, right associativity) : handler_scope.
#[local] Open Scope handler_scope.

Definition log (ev : Event) (w : World) : World :=
  mk_world (committed w) (engine w) (faults w) (rollback_fault w) (conn w) (cursor w)
           (trace w ++ [ev]).

(** The next entry of [faults]. *)
Definition next_fault (w : World) : option string * World :=
  match faults w with
  | [] => (None, w)
  | f :: fs =>
      (f, mk_world (committed w) (engine w) fs (rollback_fault w) (conn w)
                   (cursor w) (trace w))
  end.

(** [oracledb.connect( **DB_CONFIG )]: a new connection sees the committed
    tables. *)
Definition oracledb_connect : M Tables :=
  fun w =>
    let (f, w1) := next_fault (log Connect w) in
    match f with
    | Some msg => (Raise (Py.DatabaseError msg), w1)
    | None => (Return (committed w1), w1)
    end.

Definition get_db_connection : M Tables :=
  try_except oracledb_connect
    (fun e => raise (Py.HTTPException 500
                       ("Database connection failed: " ++ Py.str e))).

(** [conn = ...] and [cursor = conn.cursor()] *)
Definition assign_conn (c : Tables) : M unit :=
  fun w => (Return tt, mk_world (committed w) (engine w) (faults w) (rollback_fault w) (Some c)
                                (cursor w) (trace w)).

Definition assign_cursor : M unit :=
  fun w => (Return tt, mk_world (committed w) (engine w) (faults w) (rollback_fault w) (conn w)
                                true (trace w)).

(** [cursor.execute(sql, binds)]: a driver fault, or the statement run on the
    connection's view of the tables. *)
Definition execute {A} (v : Verb) (t : TableName) (stmt : Statement A) : M A :=
  fun w =>
    let (f, w1) := next_fault (log (Execute v t) w) in
    match f, conn w1 with
    | Some msg, _ => (Raise (Py.DatabaseError msg), w1)
    | None, None =>
        (Raise (Py.DatabaseError "DPY-1001: not connected to database"), w1)
    | None, Some view =>
        match stmt (engine w1) view with
        | (eng', inl msg) =>
            (Raise (Py.DatabaseError msg),
             mk_world (committed w1) eng' (faults w1) (rollback_fault w1) (conn w1) (cursor w1)
                      (trace w1))
        | (eng', inr (view', a)) =>
            (Return a,
             mk_world (committed w1) eng' (faults w1) (rollback_fault w1) (Some view') (cursor w1)
                      (trace w1))
        end
    end.

(** [conn.commit()] *)
Definition commit : M unit :=
  fun w =>
    let (f, w1) := next_fault (log Commit w) in
    match f, conn w1 with
    | Some msg, _ => (Raise (Py.DatabaseError msg), w1)
    | None, None =>
        (Raise (Py.DatabaseError "DPY-1001: not connected to database"), w1)
    | None, Some view =>
        (Return tt,
         mk_world view (engine w1) (faults w1) (rollback_fault w1) (conn w1)
                  (cursor w1) (trace w1))
    end.

(** [conn.rollback()]: a driver fault, which leaves the transaction as it
    is, or the connection sees the committed tables again. *)
Definition rollback : M unit :=
  fun w =>
    let w1 := log Rollback w in
    match rollback_fault w1 with
    | Some msg => (Raise (Py.DatabaseError msg), w1)
    | None =>
        (Return tt,
         mk_world (committed w1) (engine w1) (faults w1) (rollback_fault w1)
                  (match conn w1 with
                   | Some _ => Some (committed w1)
                   | None => None
                   end)
                  (cursor w1) (trace w1))
    end.

(** [cursor.close()] and [conn.close()].  What the connection did since its
    last commit never reaches [committed]; [conn] keeps the tables as the
    transaction saw them when it was closed. *)
Definition cursor_close : M unit := fun w => (Return tt, log CursorClose w).

Definition conn_close : M unit := fun w => (Return tt, log Close w).

(** [if conn: ...] and [if cursor: ...] *)
Definition if_conn (m : M unit) : M unit :=
  fun w => match conn w with Some _ => m w | None => (Return tt, w) end.

Definition if_cursor (m : M unit) : M unit :=
  fun w => if cursor w then m w else (Return tt, w).

(** [except Exception as e: if conn: conn.rollback();
     raise HTTPException(status_code=500, detail=str(e))] *)
Definition rollback_and_500 {A} (e : Py.exn) : M A :=
  if_conn rollback ;; raise (Py.HTTPException 500 (Py.str e)).

(** The [finally] clause every handler ends with. *)
Definition release : M unit :=
  if_cursor cursor_close ;; if_conn conn_close.

(** [cursor.fetchone()] on the rows of the last query. *)
Definition fetchone {A} (rows : list A) : option A := hd_error rows.

End Handler.

(* ===================================================================== *)
(** * Request bodies and responses *)
(* ===================================================================== *)

(** The pydantic models of the request bodies. *)
Module CaseCreate.
Record t : Type := mk {
  case_title : string; client_name : string; client_email : string;
  client_address : string; lawyer_name : string; lawyer_email : string;
  case_type : string; description : string;
  client_wallet : string; lawyer_wallet : string }.
End CaseCreate.

Module CaseUpdate.
Record t : Type := mk {
  case_title : string; client_name : string; client_email : string;
  client_address : string; lawyer_name : string; lawyer_email : string;
  case_type : string; description : string }.
End CaseUpdate.

Module StatusUpdate.
Record t : Type := mk { status : string }.
End StatusUpdate.

(** The dictionaries the handlers return. *)
Module Created.
Record t : Type := mk { success : bool; case_id : Z; message : string }.
End Created.

Module Ack.
Record t : Type := mk { success : bool; message : string }.
End Ack.

Module Uploaded.
Record t : Type := mk {
  success : bool; document_hash : string; message : string }.
End Uploaded.

Module CaseData.
Record t : Type := mk {
  case_id : Z;
  case_title : option string; client_name : option string;
  client_email : option string; client_address : option string;
  lawyer_name : option string; lawyer_email : option string;
  case_type : option string; description : option string;
  client_wallet : option string; lawyer_wallet : option string;
  blockchain_tx : option string; status : option string;
  created_at : option string }.
End CaseData.

Module CaseSummary.
Record t : Type := mk {
  case_id : Z;
  case_title : option string; client_name : option string;
  lawyer_name : option string; case_type : option string;
  status : option string; created_at : option string }.
End CaseSummary.

Module Stats.
Record t : Type := mk { total : Z; active : Z; closed : Z; pending : Z }.
End Stats.

Module DocumentVerify.
Record t : Type := mk { document_hash : string }.
End DocumentVerify.

Module HearingCreate.
Record t : Type := mk {
  case_id : Z; hearing_date : string; hearing_time : string;
  court_name : string; notes : string }.
End HearingCreate.

Module ChatRequest.
Record t : Type := mk {
  message : string; case_id : option Z; context : option string }.
End ChatRequest.

Module NoticeRequest.
Record t : Type := mk {
  case_type : string; party_from : string; party_to : string;
  issue : string }.
End NoticeRequest.

Module SummarizeRequest.
Record t : Type := mk { case_id : Z; document_text : string }.
End SummarizeRequest.

Module Document.
Record t : Type := mk {
  doc_id : Z; document_name : option string; document_hash : option string;
  document_type : option string; uploaded_by : option string;
  uploaded_at : option string }.
End Document.

(** The two dictionaries of [verify_document]: [{"verified": True, ...}] and
    [{"verified": False, "message": ...}]. *)
Module Verification.
Inductive t : Type :=
| Verified (document_name uploaded_by uploaded_at : option string)
| NotVerified (message : string).
End Verification.

Module Hearing.
Record t : Type := mk {
  hearing_id : Z; hearing_date : option string; hearing_time : option string;
  court_name : option string; notes : option string;
  created_at : option string }.
End Hearing.

Module ChatResponse.
Record t : Type := mk { response : string; timestamp : string }.
End ChatResponse.

Module Summary.
Record t : Type := mk { summary : string; case_id : Z }.
End Summary.

Module Health.
Record t : Type := mk {
  status : string; database : string; ai_provider : string;
  timestamp : string }.
End Health.

(* ===================================================================== *)
(** * The SQL statements of the handlers *)
(* ===================================================================== *)

Module Sql.
Import Oracle.

(** A statement that draws no identity value. *)
Definition on_tables {A} (f : Tables -> string + Tables * A) : Statement A :=
  fun eng t => (eng, f t).

(** [INSERT INTO cases (case_title, ..., lawyer_wallet)
     VALUES (:1, ..., :10) RETURNING case_id INTO :11]:
    [case_id] is drawn from the identity sequence, and [blockchain_tx],
    [status] and [created_at], which the statement does not list, take NULL,
    ['Active'] and CURRENT_TIMESTAMP. *)
Definition insert_case (c : CaseCreate.t) : Statement Z :=
  fun eng t =>
    let id := cases_seq eng in
    let eng' :=
      mk_engine (id + 1) (documents_seq eng) (current_timestamp eng) in
    if case_exists t id then (eng', inl ORA_00001)
    else
      let r := cases.mk id
        (Some (CaseCreate.case_title c)) (Some (CaseCreate.client_name c))
        (Some (CaseCreate.client_email c)) (Some (CaseCreate.client_address c))
        (Some (CaseCreate.lawyer_name c)) (Some (CaseCreate.lawyer_email c))
        (Some (CaseCreate.case_type c)) (Some (CaseCreate.description c))
        (Some (CaseCreate.client_wallet c)) (Some (CaseCreate.lawyer_wallet c))
        None (Some "Active") (Some (current_timestamp eng)) in
      (eng', inr (mk_tables (CASES t ++ [r]) (DOCUMENTS t) (HEARINGS t), id)).

(** [SELECT * FROM cases WHERE case_id = :1] *)
Definition select_case (id : Z) : Statement (list cases.row) :=
  on_tables (fun t =>
    inr (t, filter (fun r => cases.case_id r =? id) (CASES t))).

(** [UPDATE cases SET case_title = :1, client_name = :2, client_email = :3,
     client_address = :4, lawyer_name = :5, lawyer_email = :6,
     case_type = :7, description = :8 WHERE case_id = :9] *)
Definition set_case (u : CaseUpdate.t) (r : cases.row) : cases.row :=
  cases.mk (cases.case_id r)
    (Some (CaseUpdate.case_title u)) (Some (CaseUpdate.client_name u))
    (Some (CaseUpdate.client_email u)) (Some (CaseUpdate.client_address u))
    (Some (CaseUpdate.lawyer_name u)) (Some (CaseUpdate.lawyer_email u))
    (Some (CaseUpdate.case_type u)) (Some (CaseUpdate.description u))
    (cases.client_wallet r) (cases.lawyer_wallet r)
    (cases.blockchain_tx r) (cases.status r) (cases.created_at r).

Definition update_case (u : CaseUpdate.t) (id : Z) : Statement unit :=
  on_tables (fun t =>
    inr (mk_tables
           (map (fun r => if cases.case_id r =? id then set_case u r else r)
                (CASES t))
           (DOCUMENTS t) (HEARINGS t), tt)).

(** [UPDATE cases SET status = :1 WHERE case_id = :2] *)
Definition set_status (s : string) (r : cases.row) : cases.row :=
  cases.mk (cases.case_id r)
    (cases.case_title r) (cases.client_name r) (cases.client_email r)
    (cases.client_address r) (cases.lawyer_name r) (cases.lawyer_email r)
    (cases.case_type r) (cases.description r)
    (cases.client_wallet r) (cases.lawyer_wallet r)
    (cases.blockchain_tx r) (Some s) (cases.created_at r).

Definition update_status (s : string) (id : Z) : Statement unit :=
  on_tables (fun t =>
    inr (mk_tables
           (map (fun r => if cases.case_id r =? id then set_status s r else r)
                (CASES t))
           (DOCUMENTS t) (HEARINGS t), tt)).

(** [DELETE FROM hearings WHERE case_id = :1] *)
Definition delete_hearings (id : Z) : Statement unit :=
  on_tables (fun t =>
    inr (mk_tables (CASES t) (DOCUMENTS t)
           (filter (fun h => negb (is_true (eq_number (hearings.case_id h) id)))
                   (HEARINGS t)), tt)).

(** [DELETE FROM documents WHERE case_id = :1] *)
Definition delete_documents (id : Z) : Statement unit :=
  on_tables (fun t =>
    inr (mk_tables (CASES t)
           (filter (fun d => negb (is_true (eq_number (documents.case_id d) id)))
                   (DOCUMENTS t))
           (HEARINGS t), tt)).

(** [DELETE FROM cases WHERE case_id = :1]: refused (fk_case_docs,
    fk_case_hearings) when a row it would delete is still referred to. *)
Definition delete_cases (id : Z) : Statement unit :=
  on_tables (fun t =>
    if case_exists t id && has_children t id then inl ORA_02292
    else inr (mk_tables (filter (fun r => negb (cases.case_id r =? id)) (CASES t))
                        (DOCUMENTS t) (HEARINGS t), tt)).

(** [SELECT case_id, case_title, client_name, lawyer_name, case_type, status,
            created_at
     FROM cases
     WHERE UPPER(case_title) LIKE UPPER(:1) OR UPPER(client_name) LIKE UPPER(:1)
        OR UPPER(lawyer_name) LIKE UPPER(:1) OR UPPER(case_type) LIKE UPPER(:1)
     ORDER BY created_at DESC]
    The rows are handed over whole; the handler reads the seven columns. *)
Definition search_where (p : string) (r : cases.row) : option bool :=
  sql_or (sql_or (sql_or
    (LIKE (UPPER (cases.case_title r)) (UPPER (Some p)))
    (LIKE (UPPER (cases.client_name r)) (UPPER (Some p))))
    (LIKE (UPPER (cases.lawyer_name r)) (UPPER (Some p))))
    (LIKE (UPPER (cases.case_type r)) (UPPER (Some p))).

Definition select_search (p : string) : Statement (list cases.row) :=
  on_tables (fun t =>
    inr (t, ORDER_BY_DESC cases.created_at
              (filter (fun r => is_true (search_where p r)) (CASES t)))).

(** [SELECT COUNT( * ) as total,
            SUM(CASE WHEN status = 'Active' THEN 1 ELSE 0 END) as active,
            SUM(CASE WHEN status = 'Closed' THEN 1 ELSE 0 END) as closed,
            SUM(CASE WHEN status = 'Pending' THEN 1 ELSE 0 END) as pending
     FROM cases]: one row. *)
Definition case_when_status (s : string) (r : cases.row) : Z :=
  if is_true (eq_varchar (cases.status r) s) then 1 else 0.

Definition select_stats
  : Statement (list (Z * option Z * option Z * option Z)) :=
  on_tables (fun t =>
    inr (t, [(COUNT (CASES t),
              SUM (map (case_when_status "Active") (CASES t)),
              SUM (map (case_when_status "Closed") (CASES t)),
              SUM (map (case_when_status "Pending") (CASES t)))])).

(** [INSERT INTO documents (case_id, document_name, document_hash,
                            document_type, uploaded_by)
     VALUES (:1, :2, :3, :4, :5)]:
    [doc_id] is drawn from the identity sequence; refused when the hash is
    already in the table (UNIQUE) or the case is not in [cases]
    (fk_case_docs). *)
Definition insert_document (case_id : Z) (document_name document_hash
                            document_type uploaded_by : string)
  : Statement unit :=
  fun eng t =>
    let id := documents_seq eng in
    let eng' := mk_engine (cases_seq eng) (id + 1) (current_timestamp eng) in
    if existsb (fun d => documents.doc_id d =? id) (DOCUMENTS t)
       || hash_exists t document_hash
    then (eng', inl ORA_00001)
    else if negb (case_exists t case_id) then (eng', inl ORA_02291)
    else
      let d := documents.mk id (Some case_id) (Some document_name)
                 (Some document_hash) (Some document_type) (Some uploaded_by)
                 None (Some (current_timestamp eng)) in
      (eng', inr (mk_tables (CASES t) (DOCUMENTS t ++ [d]) (HEARINGS t), tt)).

(** [SELECT case_id, case_title, client_name, lawyer_name, case_type, status,
            created_at
     FROM cases ORDER BY created_at DESC] *)
Definition select_cases : Statement (list cases.row) :=
  on_tables (fun t => inr (t, ORDER_BY_DESC cases.created_at (CASES t))).

(** [SELECT doc_id, document_name, document_hash, document_type, uploaded_by,
            uploaded_at
     FROM documents WHERE case_id = :1 ORDER BY uploaded_at DESC] *)
Definition select_documents (id : Z) : Statement (list documents.row) :=
  on_tables (fun t =>
    inr (t, ORDER_BY_DESC documents.uploaded_at
              (filter (fun d => is_true (eq_number (documents.case_id d) id))
                      (DOCUMENTS t)))).

(** [SELECT document_name, uploaded_by, uploaded_at
     FROM documents WHERE document_hash = :1] *)
Definition select_document_by_hash (h : string)
  : Statement (list documents.row) :=
  on_tables (fun t =>
    inr (t, filter (fun d => is_true (eq_varchar (documents.document_hash d) h))
                   (DOCUMENTS t))).

(** [INSERT INTO hearings (case_id, hearing_date, hearing_time, court_name,
                           notes)
     VALUES (:1, TO_DATE(:2, 'YYYY-MM-DD'), :3, :4, :5)].
    Two things of the engine are inputs here: [TO_DATE], which gives the date
    a text stands for or the error it raises on it, and [hearing_id], the
    value the identity sequence of [hearings] yields for the new row.  The
    insert is refused when the case is not in [cases] (fk_case_hearings). *)
Definition insert_hearing (TO_DATE : string -> string + Py.datetime)
                          (hearing_id : Z) (case_id : Z)
                          (hearing_date hearing_time court_name notes : string)
  : Statement unit :=
  fun eng t =>
    match TO_DATE hearing_date with
    | inl msg => (eng, inl msg)
    | inr d =>
        if existsb (fun h => hearings.hearing_id h =? hearing_id) (HEARINGS t)
        then (eng, inl ORA_00001)
        else if negb (case_exists t case_id) then (eng, inl ORA_02291)
        else
          let h := hearings.mk hearing_id (Some case_id) (Some d)
                     (Some hearing_time) (Some court_name) (Some notes)
                     (Some (current_timestamp eng)) in
          (eng, inr (mk_tables (CASES t) (DOCUMENTS t) (HEARINGS t ++ [h]), tt))
    end.

(** [SELECT hearing_id, hearing_date, hearing_time, court_name, notes,
            created_at
     FROM hearings WHERE case_id = :1 ORDER BY hearing_date DESC] *)
Definition select_hearings (id : Z) : Statement (list hearings.row) :=
  on_tables (fun t =>
    inr (t, ORDER_BY_DESC hearings.hearing_date
              (filter (fun h => is_true (eq_number (hearings.case_id h) id))
                      (HEARINGS t)))).

(** [SELECT case_title, case_type, description FROM cases WHERE case_id = :1] *)
Definition select_case_context (id : Z) : Statement (list cases.row) :=
  on_tables (fun t =>
    inr (t, filter (fun r => cases.case_id r =? id) (CASES t))).

End Sql.

(* ===================================================================== *)
(** * [main.py] *)
(* ===================================================================== *)

Module Main.
Import Oracle Handler.
#[local] Open Scope handler_scope.

(** [POST /api/cases] *)
Definition create_case (case : CaseCreate.t) : M Created.t :=
  try_finally
    (try_except
       (c <- get_db_connection ;; assign_conn c ;;
        assign_cursor ;;
        case_id <- execute INSERT T_CASES (Sql.insert_case case) ;;
        commit ;;
        ret (Created.mk true case_id "Case created successfully"))
       (fun e =>
          if_conn rollback ;;
          raise (Py.HTTPException 500 ("Error: " ++ Py.str e))))
    release.

(** [GET /api/cases/{case_id}] *)
Definition get_case (case_id : Z) : M CaseData.t :=
  try_finally
    (try_except
       (c <- get_db_connection ;; assign_conn c ;;
        assign_cursor ;;
        rows <- execute SELECT T_CASES (Sql.select_case case_id) ;;
        match fetchone rows with
        | None => raise (Py.HTTPException 404 "Case not found")
        | Some row =>
            ret (CaseData.mk
                   (cases.case_id row) (cases.case_title row)
                   (cases.client_name row) (cases.client_email row)
                   (cases.client_address row) (cases.lawyer_name row)
                   (cases.lawyer_email row) (cases.case_type row)
                   (cases.description row) (cases.client_wallet row)
                   (cases.lawyer_wallet row) (cases.blockchain_tx row)
                   (cases.status row)
                   (Py.isoformat_or_None (cases.created_at row)))
        end)
       (fun e =>
          if Py.is_HTTPException e then raise e
          else raise (Py.HTTPException 500 (Py.str e))))
    release.

(** [PUT /api/cases/{case_id}] *)
Definition update_case (case_id : Z) (case : CaseUpdate.t) : M Ack.t :=
  try_finally
    (try_except
       (c <- get_db_connection ;; assign_conn c ;;
        assign_cursor ;;
        execute UPDATE T_CASES (Sql.update_case case case_id) ;;
        commit ;;
        ret (Ack.mk true "Case updated successfully"))
       rollback_and_500)
    release.

(** [PUT /api/cases/{case_id}/status] *)
Definition update_case_status (case_id : Z) (status_data : StatusUpdate.t)
  : M Ack.t :=
  try_finally
    (try_except
       (c <- get_db_connection ;; assign_conn c ;;
        assign_cursor ;;
        execute UPDATE T_CASES
          (Sql.update_status (StatusUpdate.status status_data) case_id) ;;
        commit ;;
        ret (Ack.mk true "Status updated successfully"))
       rollback_and_500)
    release.

(** [DELETE /api/cases/{case_id}] *)
Definition delete_case (case_id : Z) : M Ack.t :=
  try_finally
    (try_except
       (c <- get_db_connection ;; assign_conn c ;;
        assign_cursor ;;
        execute DELETE T_HEARINGS (Sql.delete_hearings case_id) ;;
        execute DELETE T_DOCUMENTS (Sql.delete_documents case_id) ;;
        execute DELETE T_CASES (Sql.delete_cases case_id) ;;
        commit ;;
        ret (Ack.mk true "Case deleted successfully"))
       rollback_and_500)
    release.

(** The dictionary built from a row of the seven-column SELECTs. *)
Definition summary (row : cases.row) : CaseSummary.t :=
  CaseSummary.mk (cases.case_id row) (cases.case_title row)
    (cases.client_name row) (cases.lawyer_name row) (cases.case_type row)
    (cases.status row) (Py.isoformat_or_None (cases.created_at row)).

(** [GET /api/cases/search/{query}]; the route binds [query] to one path
    segment. *)
Definition search_cases (query : string) : M (list CaseSummary.t) :=
  try_finally
    (try_except
       (c <- get_db_connection ;; assign_conn c ;;
        assign_cursor ;;
        let search_query := "%" ++ query ++ "%" in
        rows <- execute SELECT T_CASES (Sql.select_search search_query) ;;
        ret (map summary rows))
       (fun e => raise (Py.HTTPException 500 (Py.str e))))
    release.

(** [GET /api/cases/stats/overview] *)
Definition get_case_stats : M Stats.t :=
  try_finally
    (try_except
       (c <- get_db_connection ;; assign_conn c ;;
        assign_cursor ;;
        rows <- execute SELECT T_CASES Sql.select_stats ;;
        match fetchone rows with
        | None =>
            raise (Py.TypeError "'NoneType' object is not subscriptable")
        | Some (total, active, closed, pending) =>
            ret (Stats.mk (Py.or_0 (Some total)) (Py.or_0 active)
                          (Py.or_0 closed) (Py.or_0 pending))
        end)
       (fun e => raise (Py.HTTPException 500 (Py.str e))))
    release.

(** [POST /api/documents/upload]; [content] is what [await file.read()]
    gave. *)
Definition upload_document (case_id : Z) (document_name document_type
                            uploaded_by : string) (content : list byte)
  : M Uploaded.t :=
  try_finally
    (try_except
       (let document_hash := Hashlib.hexdigest content in
        c <- get_db_connection ;; assign_conn c ;;
        assign_cursor ;;
        execute INSERT T_DOCUMENTS
          (Sql.insert_document case_id document_name document_hash
                               document_type uploaded_by) ;;
        commit ;;
        ret (Uploaded.mk true document_hash "Document uploaded successfully"))
       rollback_and_500)
    release.

(** [GET /api/cases] *)
Definition get_all_cases : M (list CaseSummary.t) :=
  try_finally
    (try_except
       (c <- get_db_connection ;; assign_conn c ;;
        assign_cursor ;;
        rows <- execute SELECT T_CASES Sql.select_cases ;;
        ret (map summary rows))
       (fun e => raise (Py.HTTPException 500 (Py.str e))))
    release.

(** [GET /api/documents/{case_id}] *)
Definition document (row : documents.row) : Document.t :=
  Document.mk (documents.doc_id row) (documents.document_name row)
    (documents.document_hash row) (documents.document_type row)
    (documents.uploaded_by row)
    (Py.isoformat_or_None (documents.uploaded_at row)).

Definition get_documents (case_id : Z) : M (list Document.t) :=
  try_finally
    (try_except
       (c <- get_db_connection ;; assign_conn c ;;
        assign_cursor ;;
        rows <- execute SELECT T_DOCUMENTS (Sql.select_documents case_id) ;;
        ret (map document rows))
       (fun e => raise (Py.HTTPException 500 (Py.str e))))
    release.

(** [POST /api/documents/verify] *)
Definition verify_document (doc : DocumentVerify.t) : M Verification.t :=
  try_finally
    (try_except
       (c <- get_db_connection ;; assign_conn c ;;
        assign_cursor ;;
        rows <- execute SELECT T_DOCUMENTS
                  (Sql.select_document_by_hash
                     (DocumentVerify.document_hash doc)) ;;
        match fetchone rows with
        | Some row =>
            ret (Verification.Verified
                   (documents.document_name row) (documents.uploaded_by row)
                   (Py.isoformat_or_None (documents.uploaded_at row)))
        | None =>
            ret (Verification.NotVerified "Document not found in blockchain")
        end)
       (fun e => raise (Py.HTTPException 500 (Py.str e))))
    release.

(** [POST /api/hearings]; [TO_DATE] and [hearing_id] are the engine's, as in
    [Sql.insert_hearing]. *)
Definition create_hearing (TO_DATE : string -> string + Py.datetime)
                          (hearing_id : Z) (hearing : HearingCreate.t)
  : M Ack.t :=
  try_finally
    (try_except
       (c <- get_db_connection ;; assign_conn c ;;
        assign_cursor ;;
        execute INSERT T_HEARINGS
          (Sql.insert_hearing TO_DATE hearing_id
             (HearingCreate.case_id hearing)
             (HearingCreate.hearing_date hearing)
             (HearingCreate.hearing_time hearing)
             (HearingCreate.court_name hearing)
             (HearingCreate.notes hearing)) ;;
        commit ;;
        ret (Ack.mk true "Hearing added successfully"))
       rollback_and_500)
    release.

(** [GET /api/hearings/{case_id}] *)
Definition hearing_dict (row : hearings.row) : Hearing.t :=
  Hearing.mk (hearings.hearing_id row)
    (Py.isoformat_or_None (hearings.hearing_date row))
    (hearings.hearing_time row) (hearings.court_name row)
    (hearings.notes row)
    (Py.isoformat_or_None (hearings.created_at row)).

Definition get_hearings (case_id : Z) : M (list Hearing.t) :=
  try_finally
    (try_except
       (c <- get_db_connection ;; assign_conn c ;;
        assign_cursor ;;
        rows <- execute SELECT T_HEARINGS (Sql.select_hearings case_id) ;;
        ret (map hearing_dict rows))
       (fun e => raise (Py.HTTPException 500 (Py.str e))))
    release.

(** [chat_with_groq(prompt)].  The provider is an input: [groq prompt] is the
    text of [data['choices'][0]['message']['content']], or the [str(e)] of
    what the request or the reading of its answer raised. *)
Definition chat_with_groq (groq : string -> string + string) (prompt : string)
  : M string :=
  match groq prompt with
  | inr content => ret content
  | inl msg => raise (Py.HTTPException 500 ("AI Error: " ++ msg))
  end.

Definition system_prompt : string :=
  "You are a legal AI assistant for LawChain AI. " ++ Py.nl ++
  "        You help with:" ++ Py.nl ++
  "        1. Legal document summaries" ++ Py.nl ++
  "        2. Legal notice generation" ++ Py.nl ++
  "        3. Case analysis and insights" ++ Py.nl ++
  "        4. Legal questions and guidance" ++ Py.nl ++
  "        " ++ Py.nl ++
  "        Maintain professional tone and cite relevant laws when applicable.".

(** The prompt of [chat_with_ai], from the case context found (or the empty string), the
    context of the request and its message. *)
Definition full_prompt (context : string) (request : ChatRequest.t) : string :=
  let full_prompt := system_prompt ++ Py.nl ++ Py.nl in
  let full_prompt :=
    if Py.truthy context
    then full_prompt ++ "Context: " ++ context ++ Py.nl ++ Py.nl
    else full_prompt in
  let full_prompt :=
    match ChatRequest.context request with
    | Some c =>
        if Py.truthy c
        then full_prompt ++ "Additional Context: " ++ c ++ Py.nl ++ Py.nl
        else full_prompt
    | None => full_prompt
    end in
  full_prompt ++ "User Query: " ++ ChatRequest.message request.

(** [POST /api/chat]; [now] is what [datetime.now()] gives. *)
Definition chat_with_ai (groq : string -> string + string) (now : Py.datetime)
                        (request : ChatRequest.t) : M ChatResponse.t :=
  try_finally
    (try_except
       (context <-
          match ChatRequest.case_id request with
          | None => ret EmptyString
          | Some case_id =>
              if case_id =? 0 then ret EmptyString
              else
                c <- get_db_connection ;; assign_conn c ;;
                assign_cursor ;;
                rows <- execute SELECT T_CASES
                          (Sql.select_case_context case_id) ;;
                match fetchone rows with
                | Some row =>
                    ret ("Case Context - Title: "
                         ++ Py.format_value (cases.case_title row)
                         ++ ", Type: "
                         ++ Py.format_value (cases.case_type row)
                         ++ ", Description: "
                         ++ Py.format_value (cases.description row))
                | None => ret EmptyString
                end
          end ;;
        response_text <- chat_with_groq groq (full_prompt context request) ;;
        ret (ChatResponse.mk response_text (Py.isoformat now)))
       (fun e => raise (Py.HTTPException 500 (Py.str e))))
    release.

(** [POST /api/chat/summarize] *)
Definition summarize_document (groq : string -> string + string)
                              (request : SummarizeRequest.t) : M Summary.t :=
  try_except
    (let prompt :=
       "Summarize this legal document clearly and concisely. " ++ Py.nl ++
       "        Highlight key points, parties involved, and important clauses:"
       ++ Py.nl ++
       "        " ++ Py.nl ++
       "        " ++ SummarizeRequest.document_text request in
     response_text <- chat_with_groq groq prompt ;;
     ret (Summary.mk response_text (SummarizeRequest.case_id request)))
    (fun e => raise (Py.HTTPException 500 (Py.str e))).

(** [POST /api/chat/generate-notice] *)
Definition generate_legal_notice (groq : string -> string + string)
                                 (request : NoticeRequest.t) : M string :=
  try_except
    (let prompt :=
       "Generate a professional legal notice template for:" ++ Py.nl ++
       "        Case Type: " ++ NoticeRequest.case_type request ++ Py.nl ++
       "        From: " ++ NoticeRequest.party_from request ++ Py.nl ++
       "        To: " ++ NoticeRequest.party_to request ++ Py.nl ++
       "        Issue: " ++ NoticeRequest.issue request ++ Py.nl ++
       "        " ++ Py.nl ++
       "        Include proper legal formatting, professional language, and relevant legal clauses." in
     response_text <- chat_with_groq groq prompt ;;
     ret response_text)
    (fun e => raise (Py.HTTPException 500 (Py.str e))).

(** [GET /health]: [try: conn = get_db_connection(); conn.close();
    db_status = "connected" / except: db_status = "disconnected"]. *)
Definition health_check (now : Py.datetime) : M Health.t :=
  db_status <-
    try_except
      (c <- get_db_connection ;; assign_conn c ;;
       conn_close ;;
       ret "connected")
      (fun _ => ret "disconnected") ;;
  ret (Health.mk "running" db_status "Groq (Llama 3.3 70B)"
                 (Py.isoformat now)).

End Main.

(* ===================================================================== *)
(** * [app.py] *)
(* ===================================================================== *)

Module App.
Import Oracle Handler.
#[local] Open Scope handler_scope.

(** [GET /api/cases/{case_id}] *)
Definition get_case (case_id : Z) : M CaseData.t :=
  try_finally
    (try_except
       (c <- get_db_connection ;; assign_conn c ;;
        assign_cursor ;;
        rows <- execute SELECT T_CASES (Sql.select_case case_id) ;;
        match fetchone rows with
        | None => raise (Py.HTTPException 404 "Case not found")
        | Some row =>
            ret (CaseData.mk
                   (cases.case_id row) (cases.case_title row)
                   (cases.client_name row) (cases.client_email row)
                   (cases.client_address row) (cases.lawyer_name row)
                   (cases.lawyer_email row) (cases.case_type row)
                   (cases.description row) (cases.client_wallet row)
                   (cases.lawyer_wallet row) (cases.blockchain_tx row)
                   (cases.status row)
                   (Py.isoformat_or_None (cases.created_at row)))
        end)
       (fun e =>
          if Py.is_HTTPException e then raise e
          else raise (Py.HTTPException 500 (Py.str e))))
    release.

(** [DELETE /api/cases/{case_id}]: this entry point has no statement on
    [hearings]. *)
Definition delete_case (case_id : Z) : M Ack.t :=
  try_finally
    (try_except
       (c <- get_db_connection ;; assign_conn c ;;
        assign_cursor ;;
        execute DELETE T_DOCUMENTS (Sql.delete_documents case_id) ;;
        execute DELETE T_CASES (Sql.delete_cases case_id) ;;
        commit ;;
        ret (Ack.mk true "Case deleted successfully"))
       rollback_and_500)
    release.

(** [POST /api/cases] *)
Definition create_case (case : CaseCreate.t) : M Created.t :=
  try_finally
    (try_except
       (c <- get_db_connection ;; assign_conn c ;;
        assign_cursor ;;
        case_id <- execute INSERT T_CASES (Sql.insert_case case) ;;
        commit ;;
        ret (Created.mk true case_id "Case created successfully"))
       (fun e =>
          if_conn rollback ;;
          raise (Py.HTTPException 500 ("Error: " ++ Py.str e))))
    release.

(** [GET /api/cases] *)
Definition get_all_cases : M (list CaseSummary.t) :=
  try_finally
    (try_except
       (c <- get_db_connection ;; assign_conn c ;;
        assign_cursor ;;
        rows <- execute SELECT T_CASES Sql.select_cases ;;
        ret (map (fun row =>
                    CaseSummary.mk (cases.case_id row) (cases.case_title row)
                      (cases.client_name row) (cases.lawyer_name row)
                      (cases.case_type row) (cases.status row)
                      (Py.isoformat_or_None (cases.created_at row)))
                 rows))
       (fun e => raise (Py.HTTPException 500 (Py.str e))))
    release.

(** [PUT /api/cases/{case_id}/status] *)
Definition update_case_status (case_id : Z) (status_data : StatusUpdate.t)
  : M Ack.t :=
  try_finally
    (try_except
       (c <- get_db_connection ;; assign_conn c ;;
        assign_cursor ;;
        execute UPDATE T_CASES
          (Sql.update_status (StatusUpdate.status status_data) case_id) ;;
        commit ;;
        ret (Ack.mk true "Status updated successfully"))
       rollback_and_500)
    release.

(** [GET /health] *)
Definition health_check (now : Py.datetime) : M Health.t :=
  db_status <-
    try_except
      (c <- get_db_connection ;; assign_conn c ;;
       conn_close ;;
       ret "connected")
      (fun _ => ret "disconnected") ;;
  ret (Health.mk "running" db_status "Groq (Llama 3.3 70B)"
                 (Py.isoformat now)).

End App.

(* ===================================================================== *)
(** * Vocabulary of the properties *)
(* ===================================================================== *)

Import Oracle Handler.

(** A driver that reports no fault at any of the coming calls. *)
Definition healthy (fs : list (option string)) : Prop := Forall (eq None) fs.

(** What a full update with body [u] of case [id] makes of a row [r]: the
    row [r'] at the same place. *)
Definition full_update_of (u : CaseUpdate.t) (id : Z) (r r' : cases.row)
  : Prop :=
  (cases.case_id r <> id -> r' = r)
  /\ (cases.case_id r = id ->
        (cases.case_title r' = Some (CaseUpdate.case_title u)
         /\ cases.client_name r' = Some (CaseUpdate.client_name u)
         /\ cases.client_email r' = Some (CaseUpdate.client_email u)
         /\ cases.client_address r' = Some (CaseUpdate.client_address u)
         /\ cases.lawyer_name r' = Some (CaseUpdate.lawyer_name u)
         /\ cases.lawyer_email r' = Some (CaseUpdate.lawyer_email u)
         /\ cases.case_type r' = Some (CaseUpdate.case_type u)
         /\ cases.description r' = Some (CaseUpdate.description u))
        /\ cases.status r' = cases.status r
        /\ cases.client_wallet r' = cases.client_wallet r
        /\ cases.lawyer_wallet r' = cases.lawyer_wallet r
        /\ cases.blockchain_tx r' = cases.blockchain_tx r
        /\ cases.case_id r' = cases.case_id r
        /\ cases.created_at r' = cases.created_at r).

Definition status_eq_dec (a b : option string) : {a = b} + {a <> b}.
Proof. decide equality. apply string_dec. Defined.

(** The number of rows whose status is exactly [s]. *)
Definition count_status (s : string) (l : list cases.row) : Z :=
  Z.of_nat (count_occ status_eq_dec (map cases.status l) (Some s)).

(** The number of rows whose status is none of the three named ones (a NULL
    status too). *)
Definition count_other_status (l : list cases.row) : Z :=
  Z.of_nat (List.length
    (filter (fun s => if status_eq_dec s (Some "Active") then false
                      else if status_eq_dec s (Some "Closed") then false
                      else if status_eq_dec s (Some "Pending") then false
                      else true)
            (map cases.status l))).

(** The dictionary [d] holds the fourteen columns of [row], the timestamp in
    ISO form. *)
Definition full_record (row : cases.row) (d : CaseData.t) : Prop :=
  CaseData.case_id d = cases.case_id row
  /\ CaseData.case_title d = cases.case_title row
  /\ CaseData.client_name d = cases.client_name row
  /\ CaseData.client_email d = cases.client_email row
  /\ CaseData.client_address d = cases.client_address row
  /\ CaseData.lawyer_name d = cases.lawyer_name row
  /\ CaseData.lawyer_email d = cases.lawyer_email row
  /\ CaseData.case_type d = cases.case_type row
  /\ CaseData.description d = cases.description row
  /\ CaseData.client_wallet d = cases.client_wallet row
  /\ CaseData.lawyer_wallet d = cases.lawyer_wallet row
  /\ CaseData.blockchain_tx d = cases.blockchain_tx row
  /\ CaseData.status d = cases.status row
  /\ CaseData.created_at d = option_map Py.isoformat (cases.created_at row).


(** The number of [documents] rows whose hash is [h]. *)
Definition count_hash (h : string) (t : Tables) : nat :=
  count_occ status_eq_dec (map documents.document_hash (DOCUMENTS t)) (Some h).

(** [after] is [before] without the rows of case [id]: its hearings, its
    documents and its [cases] row are gone, every other row is kept. *)
Definition case_removed (id : Z) (before after : Tables) : Prop :=
  (forall h, In h (HEARINGS after)
             <-> In h (HEARINGS before) /\ hearings.case_id h <> Some id)
  /\ (forall d, In d (DOCUMENTS after)
                <-> In d (DOCUMENTS before) /\ documents.case_id d <> Some id)
  /\ (forall r, In r (CASES after)
                <-> In r (CASES before) /\ cases.case_id r <> id).

(** The same for an entry point that knows no hearings. *)
Definition case_and_documents_removed (id : Z) (before after : Tables) : Prop :=
  HEARINGS after = HEARINGS before
  /\ (forall d, In d (DOCUMENTS after)
                <-> In d (DOCUMENTS before) /\ documents.case_id d <> Some id)
  /\ (forall r, In r (CASES after)
                <-> In r (CASES before) /\ cases.case_id r <> id).

Definition success_of_delete : Ack.t := Ack.mk true "Case deleted successfully".

(** Two characters that differ at most by the case of a letter. *)
Definition same_letter (a b : ascii) : Prop := upper_char a = upper_char b.

(** [q] occurs in [s], letter case apart. *)
Definition ci_substring (q s : string) : Prop :=
  exists pre mid post,
    list_ascii_of_string s = (pre ++ mid ++ post)%list
    /\ Forall2 same_letter (list_ascii_of_string q) mid.

Definition field_contains (q : string) (f : option string) : Prop :=
  exists s, f = Some s /\ ci_substring q s.

(** [q] occurs in the title, the client name, the lawyer name or the case
    type of [r]. *)
Definition matches_query (q : string) (r : cases.row) : Prop :=
  field_contains q (cases.case_title r)
  \/ field_contains q (cases.client_name r)
  \/ field_contains q (cases.lawyer_name r)
  \/ field_contains q (cases.case_type r).

(** No character of [q] is a LIKE wildcard. *)
Definition literal (c : ascii) : Prop := c <> "%"%char /\ c <> "_"%char.
Definition wildcard_free (q : string) : Prop :=
  Forall literal (list_ascii_of_string q).

(** [a] may stand before [b] when rows are listed latest first (a row
    without timestamp before any other). *)
Definition listed_before {A} (key : A -> option Py.datetime) (a b : A)
  : Prop :=
  desc_leb (key a) (key b) = true.

Definition not_older (a b : cases.row) : Prop :=
  listed_before cases.created_at a b.

Fixpoint ci_prefixb (q s : list ascii) : bool :=
  match q, s with
  | [], _ => true
  | _ :: _, [] => false
  | a :: q', b :: s' =>
      Ascii.eqb (upper_char a) (upper_char b) && ci_prefixb q' s'
  end.

Fixpoint ci_infixb (q s : list ascii) {struct s} : bool :=
  ci_prefixb q s
  || match s with [] => false | _ :: s' => ci_infixb q s' end.

Definition field_containsb (q : string) (f : option string) : bool :=
  match f with
  | Some s => ci_infixb (list_ascii_of_string q) (list_ascii_of_string s)
  | None => false
  end.

(** ** Sample data

    Three cases: "Smith" is in the client name of the first, in the lawyer
    name of the second (in capitals) and only in the description of the
    third. The first case has one document and one hearing. *)

Definition sample_engine : Engine :=
  mk_engine 4 2 (Py.mk_datetime 2024 3 9 14 5 0 0).

Definition smith_client : cases.row :=
  cases.mk 1 (Some "Land dispute") (Some "John Smith")
    (Some "john@example.org") (Some "12 High Street")
    (Some "Jane Doe") (Some "jane@example.org") (Some "Civil")
    (Some "Boundary wall") (Some "0xC1") (Some "0xA1") None (Some "Active")
    (Some (Py.mk_datetime 2024 3 1 9 0 0 0)).

Definition smith_lawyer : cases.row :=
  cases.mk 2 (Some "Unpaid invoice") (Some "Ann Lee")
    (Some "ann@example.org") (Some "3 Mill Lane")
    (Some "Jane SMITH") (Some "smith@example.org") (Some "Commercial")
    (Some "Invoice 17") (Some "0xC2") (Some "0xA2") None (Some "Closed")
    (Some (Py.mk_datetime 2024 3 5 16 30 0 0)).

Definition smith_described : cases.row :=
  cases.mk 3 (Some "Tax appeal") (Some "Bob Ray")
    (Some "bob@example.org") (Some "9 Dock Road")
    (Some "Cy Poe") (Some "cy@example.org") (Some "Tax")
    (Some "Dispute with Mr Smith") (Some "0xC3") (Some "0xA3") None
    (Some "Pending") (Some (Py.mk_datetime 2024 3 7 11 0 0 250000)).

Definition sample_document : documents.row :=
  documents.mk 1 (Some 1) (Some "deed.pdf")
    (Some "ba7816bf8f01cfea414140de5dae2223b00361a396177a9cb410ff61f20015ad")
    (Some "pdf") (Some "Jane Doe") None
    (Some (Py.mk_datetime 2024 3 2 10 0 0 0)).

Definition sample_hearing : hearings.row :=
  hearings.mk 1 (Some 1) (Some (Py.mk_datetime 2024 4 2 0 0 0 0))
    (Some "10:30") (Some "District Court") (Some "First hearing")
    (Some (Py.mk_datetime 2024 3 3 8 0 0 0)).

Definition sample_db : Tables :=
  mk_tables [smith_client; smith_lawyer; smith_described]
            [sample_document] [sample_hearing].

Definition sample_update : CaseUpdate.t :=
  CaseUpdate.mk "Land dispute (appeal)" "John A. Smith" "john@example.org"
    "14 High Street" "Jane Doe" "jane@example.org" "Civil"
    "Boundary wall, second instance".

Definition sample_create : CaseCreate.t :=
  CaseCreate.mk "Lease" "Dee Fox" "dee@example.org" "1 Quay" "Cy Poe"
    "cy@example.org" "Civil" "Lease renewal" "0xC4" "0xA3".

(** Five cases with statuses Active, Active, Closed, Pending, Archived. *)
Definition case_with_status (id : Z) (s : string) : cases.row :=
  cases.mk id (Some "t") (Some "c") None None (Some "l") None (Some "k")
    None None None None (Some s) (Some (Py.mk_datetime 2024 1 1 0 0 0 0)).

Definition five_cases : Tables :=
  mk_tables [case_with_status 1 "Active"; case_with_status 2 "Active";
             case_with_status 3 "Closed"; case_with_status 4 "Pending";
             case_with_status 5 "Archived"] [] [].

(** ** Vocabulary of the further properties *)

(** The status update with text [s] of case [id] makes [r'] of [r]. *)
Definition status_update_of (s : string) (id : Z) (r r' : cases.row) : Prop :=
  (cases.case_id r <> id -> r' = r)
  /\ (cases.case_id r = id ->
        cases.status r' = Some s
        /\ cases.case_id r' = cases.case_id r
        /\ cases.case_title r' = cases.case_title r
        /\ cases.client_name r' = cases.client_name r
        /\ cases.client_email r' = cases.client_email r
        /\ cases.client_address r' = cases.client_address r
        /\ cases.lawyer_name r' = cases.lawyer_name r
        /\ cases.lawyer_email r' = cases.lawyer_email r
        /\ cases.case_type r' = cases.case_type r
        /\ cases.description r' = cases.description r
        /\ cases.client_wallet r' = cases.client_wallet r
        /\ cases.lawyer_wallet r' = cases.lawyer_wallet r
        /\ cases.blockchain_tx r' = cases.blockchain_tx r
        /\ cases.created_at r' = cases.created_at r).

(** What the schema of [init_database] promises of the tables: primary keys
    and document hashes are not repeated, and every document and hearing
    that names a case names a stored one. *)
Definition non_null {A} (l : list (option A)) : list A :=
  flat_map (fun o => match o with Some x => [x] | None => [] end) l.

Definition integrity (t : Tables) : Prop :=
  NoDup (map cases.case_id (CASES t))
  /\ NoDup (map documents.doc_id (DOCUMENTS t))
  /\ NoDup (map hearings.hearing_id (HEARINGS t))
  /\ NoDup (non_null (map documents.document_hash (DOCUMENTS t)))
  /\ (forall d id, In d (DOCUMENTS t) -> documents.case_id d = Some id ->
                   case_exists t id = true)
  /\ (forall h id, In h (HEARINGS t) -> hearings.case_id h = Some id ->
                   case_exists t id = true).

(** The driver calls of a handler that gave back what it took, the driver
    reporting [fs]: when the connection attempt fails, that attempt and
    nothing more; when it goes through, the attempt, then calls that neither
    connect nor close anything, then the closing of the cursor and, last, of
    the connection. *)
Definition released (fs : list (option string)) (tr : list Event) : Prop :=
  match fs with
  | Some _ :: _ => tr = [Connect]
  | _ =>
      exists calls,
        tr = (Connect :: calls ++ [CursorClose; Close])%list
        /\ ~ In Connect calls /\ ~ In CursorClose calls /\ ~ In Close calls
  end.

(** A handler left the store alone: the committed tables and the identity
    sequences are what they were, and it never called [commit]. *)
Definition untouched (db : Tables) (eng : Engine) (w : World) : Prop :=
  committed w = db /\ engine w = eng /\ ~ In Commit (trace w).



(** What [chat_with_ai] makes of the provider's answer to a prompt. *)
Definition chat_outcome (groq : string -> string + string) (now : Py.datetime)
                        (prompt : string) : Outcome ChatResponse.t :=
  match groq prompt with
  | inr text => Return (ChatResponse.mk text (Py.isoformat now))
  | inl msg =>
      Raise (Py.HTTPException 500
               (Py.str (Py.HTTPException 500 ("AI Error: " ++ msg))))
  end.

(** A stand-in for the engine's [TO_DATE(text, 'YYYY-MM-DD')] in the sample
    runs: it knows one date. *)
Definition sample_to_date (text : string) : string + Py.datetime :=
  if String.eqb text "2024-04-02"
  then inr (Py.mk_datetime 2024 4 2 0 0 0 0)
  else inl "ORA-01861: literal does not match format string".

Definition sample_hearing_request : HearingCreate.t :=
  HearingCreate.mk 2 "2024-04-02" "09:15" "High Court" "Directions".

(** A stand-in for the provider: it answers every prompt by its length. *)
Definition sample_groq (prompt : string) : string + string :=
  inr ("answer to " ++ Py.str_int (Z.of_nat (String.length prompt))
       ++ " characters").

Definition failing_groq (prompt : string) : string + string :=
  inl "503 Server Error".

(* ===================================================================== *)
(** * Properties *)
(* ===================================================================== *)

Example isoformat_example :
  Py.isoformat (Py.mk_datetime 2024 3 9 14 5 0 0) = "2024-03-09T14:05:00"
  /\ Py.isoformat (Py.mk_datetime 2024 3 9 14 5 0 1500)
     = "2024-03-09T14:05:00.001500"
  /\ Py.str (Py.HTTPException 404 "Case not found") = "404: Case not found".
Proof. repeat split; reflexivity. Qed.

(** The first and the last round constant and the first chaining word, as
    the standard prints them. *)
Example sha256_constants :
  List.length Hashlib.K = 64%nat
  /\ nth 0 Hashlib.K 0 = 0x428a2f98
  /\ nth 63 Hashlib.K 0 = 0xc67178f2
  /\ Hashlib.ha Hashlib.initial_state = 0x6a09e667
  /\ Hashlib.hh Hashlib.initial_state = 0x5be0cd19.
Proof. repeat split. Qed.

(** Test vectors of FIPS 180-4 (empty message, one block, two blocks). *)
Example sha256_vectors :
  Hashlib.hexdigest []
  = "e3b0c44298fc1c149afbf4c8996fb92427ae41e4649b934ca495991b7852b855"
  /\ Hashlib.hexdigest (list_byte_of_string "abc")
  = "ba7816bf8f01cfea414140de5dae2223b00361a396177a9cb410ff61f20015ad"
  /\ Hashlib.hexdigest (list_byte_of_string
       "abcdbcdecdefdefgefghfghighijhijkijkljklmklmnlmnomnopnopq")
  = "248d6a61d20638b8e5c026930c3e6039a33ce45964ff2167f6ecedd419db06c1".
Proof. repeat split; vm_compute; reflexivity. Qed.

Lemma healthy_cons f fs : healthy (f :: fs) -> f = None /\ healthy fs.
Proof. intros H; inversion H; subst; auto. Qed.

(** Takes the next entry off a healthy fault list [fs] ([H : healthy fs]). *)
Ltac next_call fs H :=
  destruct fs as [| ? fs];
  [ | apply healthy_cons in H; destruct H as [-> H] ].

(** Takes the next entry off any fault list. *)
Ltac any_call fs := destruct fs as [| [?msg |] fs].

(** Runs the handler combinators of the goal as far as the data allows. *)
Ltac run :=
  cbv beta iota zeta delta
    [Main.create_case Main.get_case Main.update_case Main.update_case_status
     Main.delete_case Main.search_cases Main.get_case_stats
     Main.upload_document App.get_case App.delete_case
     try_finally try_except bind ret raise get_db_connection oracledb_connect
     assign_conn assign_cursor execute commit rollback conn_close cursor_close
     if_conn if_cursor release rollback_and_500 next_fault log request
     request_with rollback_fault
     fetchone hd_error committed engine faults conn cursor trace app
     Sql.on_tables Sql.insert_case Sql.select_case Sql.update_case
     Sql.update_status Sql.delete_hearings Sql.delete_documents
     Sql.delete_cases Sql.select_search Sql.select_stats Sql.insert_document
     fst snd].

(** ** Rows of a case *)

Lemma case_exists_false_iff t id :
  case_exists t id = false <-> forall r, In r (CASES t) -> cases.case_id r <> id.
Proof.
  unfold case_exists. split.
  - intros H r Hr Heq.
    assert (existsb (fun r => cases.case_id r =? id) (CASES t) = true) as E.
    { apply existsb_exists. exists r. split; auto. now apply Z.eqb_eq. }
    congruence.
  - intros H. destruct (existsb _ _) eqn:E; auto.
    apply existsb_exists in E. destruct E as [r [Hr Hid]].
    apply Z.eqb_eq in Hid. now apply H in Hr.
Qed.

Lemma map_other_rows (f : cases.row -> cases.row) id l :
  (forall r, In r l -> cases.case_id r <> id) ->
  map (fun r => if cases.case_id r =? id then f r else r) l = l.
Proof.
  induction l as [| r l IH]; intros H; simpl; auto.
  rewrite IH by (intros; apply H; now right).
  destruct (Z.eqb_spec (cases.case_id r) id) as [E | _]; auto.
  exfalso. apply (H r); auto. now left.
Qed.

Lemma tables_eta t : mk_tables (CASES t) (DOCUMENTS t) (HEARINGS t) = t.
Proof. now destruct t. Qed.

(** C6. The full update and the status update of [main.py] report success
    when no case has the given identifier: with a driver that reports no
    fault, both return their success dictionary (no 404, no other error), and
    the committed tables are what they were. *)
Theorem update_of_missing_case_succeeds :
  forall db eng fs id (u : CaseUpdate.t) (s : StatusUpdate.t),
    healthy fs ->
    case_exists db id = false ->
    (fst (Main.update_case id u (request db eng fs))
       = Return (Ack.mk true "Case updated successfully")
     /\ committed (snd (Main.update_case id u (request db eng fs))) = db)
    /\
    (fst (Main.update_case_status id s (request db eng fs))
       = Return (Ack.mk true "Status updated successfully")
     /\ committed (snd (Main.update_case_status id s (request db eng fs))) = db).
Proof.
  intros db eng fs id u s H Hid.
  rewrite case_exists_false_iff in Hid.
  split.
  - next_call fs H; [| next_call fs H; [| next_call fs H ] ];
      cbn; rewrite map_other_rows by assumption;
      now rewrite tables_eta.
  - next_call fs H; [| next_call fs H; [| next_call fs H ] ];
      cbn; rewrite map_other_rows by assumption;
      now rewrite tables_eta.
Qed.

(** C10. A case created by [create_case] has status ['Active'] and no
    blockchain transaction reference, whatever the request body holds:
    when the handler returns, the committed [cases] table is the old one
    followed by one new row, which carries the returned identifier, status
    ['Active'] and a NULL [blockchain_tx]; its other columns are the ten
    fields of the body. *)
Theorem create_case_status_active :
  forall db eng fs (c : CaseCreate.t) r w,
    Main.create_case c (request db eng fs) = (Return r, w) ->
    exists row,
      CASES (committed w) = (CASES db ++ [row])%list
      /\ cases.case_id row = Created.case_id r
      /\ cases.status row = Some "Active"
      /\ cases.blockchain_tx row = None
      /\ cases.client_wallet row = Some (CaseCreate.client_wallet c)
      /\ cases.lawyer_wallet row = Some (CaseCreate.lawyer_wallet c)
      /\ cases.case_title row = Some (CaseCreate.case_title c)
      /\ DOCUMENTS (committed w) = DOCUMENTS db
      /\ HEARINGS (committed w) = HEARINGS db.
Proof.
  intros db eng fs c r w.
  any_call fs; [| | any_call fs; [| | any_call fs] ]; run;
    try discriminate;
    destruct (case_exists db (cases_seq eng)); try discriminate;
    intros E; inversion E; subst; clear E; cbn;
    eexists; repeat split; reflexivity.
Qed.

Lemma update_rows_spec u id l :
  Forall2 (full_update_of u id) l
    (map (fun r => if cases.case_id r =? id then Sql.set_case u r else r) l).
Proof.
  induction l as [| r l IH]; simpl; constructor; auto.
  unfold full_update_of.
  destruct (Z.eqb_spec (cases.case_id r) id) as [E | E]; split; intros E';
    try contradiction; auto.
  cbn. repeat split; reflexivity.
Qed.

(** C7. A full update that succeeds replaces, in the row of the case, the
    title, the client name, email and address, the lawyer name and email, the
    case type and the description, and leaves its status, wallets,
    transaction reference, identifier and creation timestamp as they were;
    every other case, every document and every hearing is unchanged. *)
Theorem update_case_frame :
  forall db eng fs id (u : CaseUpdate.t) a w,
    Main.update_case id u (request db eng fs) = (Return a, w) ->
    Forall2 (full_update_of u id) (CASES db) (CASES (committed w))
    /\ DOCUMENTS (committed w) = DOCUMENTS db
    /\ HEARINGS (committed w) = HEARINGS db.
Proof.
  intros db eng fs id u a w.
  any_call fs; [| | any_call fs; [| | any_call fs] ]; run;
    try discriminate;
    intros E; inversion E; subst; clear E; cbn;
    (split; [apply update_rows_spec | split; reflexivity]).
Qed.

(** ** Statistics *)

Lemma case_when_status_spec s r :
  Sql.case_when_status s r
  = if status_eq_dec (cases.status r) (Some s) then 1 else 0.
Proof.
  unfold Sql.case_when_status, eq_varchar.
  destruct (status_eq_dec (cases.status r) (Some s)) as [E | E].
  - rewrite E. cbn [option_map is_true]. now rewrite String.eqb_refl.
  - destruct (cases.status r) as [x |]; cbn [option_map is_true]; auto.
    destruct (String.eqb_spec x s) as [-> | N]; auto. congruence.
Qed.

Lemma sum_case_when s l :
  fold_right Z.add 0 (map (Sql.case_when_status s) l) = count_status s l.
Proof.
  unfold count_status.
  induction l as [| r l IH]; simpl; auto.
  rewrite IH, case_when_status_spec.
  destruct (status_eq_dec (cases.status r) (Some s)); lia.
Qed.

Lemma or_0_SUM s l :
  Py.or_0 (SUM (map (Sql.case_when_status s) l)) = count_status s l.
Proof.
  destruct l as [| r l]; [reflexivity |].
  unfold SUM. change (map _ (r :: l)) with (map (Sql.case_when_status s) (r :: l)).
  cbv [map]. fold (map (Sql.case_when_status s) l).
  change (Sql.case_when_status s r :: map (Sql.case_when_status s) l)
    with (map (Sql.case_when_status s) (r :: l)).
  rewrite sum_case_when. unfold Py.or_0.
  destruct (Z.eqb_spec (count_status s (r :: l)) 0); lia.
Qed.

Lemma or_0_COUNT (l : list cases.row) :
  Py.or_0 (Some (COUNT l)) = Z.of_nat (List.length l).
Proof.
  unfold Py.or_0, COUNT. destruct (Z.eqb_spec (Z.of_nat (List.length l)) 0); lia.
Qed.

Lemma status_buckets l :
  Z.of_nat (List.length l)
  = count_status "Active" l + count_status "Closed" l
    + count_status "Pending" l + count_other_status l.
Proof.
  unfold count_status, count_other_status.
  induction l as [| r l IH]; [reflexivity |].
  cbn [map count_occ filter List.length].
  destruct (status_eq_dec (cases.status r) (Some "Active")) as [E | ?];
    [rewrite E |];
    destruct (status_eq_dec _ (Some "Closed")) as [E' | ?];
    try discriminate; try (rewrite E');
    destruct (status_eq_dec _ (Some "Pending")) as [E'' | ?];
    try discriminate; cbn [List.length]; lia.
Qed.

(** C8. With a driver that reports no fault, [stats()] returns [total] equal
    to the number of stored cases and [active], [closed], [pending] equal to
    the number of cases whose status is exactly ['Active'], ['Closed'],
    ['Pending']; the cases with any other status make up the rest of [total];
    cases with statuses Active, Active, Closed, Pending, Archived give
    5, 2, 1, 1. *)
Theorem get_case_stats_counts :
  forall db eng fs,
    healthy fs ->
    fst (Main.get_case_stats (request db eng fs))
    = Return (Stats.mk (Z.of_nat (List.length (CASES db)))
                       (count_status "Active" (CASES db))
                       (count_status "Closed" (CASES db))
                       (count_status "Pending" (CASES db)))
    /\ Z.of_nat (List.length (CASES db))
       = count_status "Active" (CASES db) + count_status "Closed" (CASES db)
         + count_status "Pending" (CASES db) + count_other_status (CASES db)
    /\ (map cases.status (CASES db)
        = [Some "Active"; Some "Active"; Some "Closed"; Some "Pending";
           Some "Archived"] ->
        fst (Main.get_case_stats (request db eng fs))
        = Return (Stats.mk 5 2 1 1)).
Proof.
  intros db eng fs H.
  assert (fst (Main.get_case_stats (request db eng fs))
          = Return (Stats.mk (Z.of_nat (List.length (CASES db)))
                       (count_status "Active" (CASES db))
                       (count_status "Closed" (CASES db))
                       (count_status "Pending" (CASES db)))) as R.
  { next_call fs H; [| next_call fs H ]; run;
      now rewrite or_0_COUNT, !or_0_SUM. }
  split; [exact R |]. split; [apply status_buckets |].
  intros E. rewrite R. unfold count_status. rewrite E.
  rewrite <- (length_map cases.status), E. reflexivity.
Qed.

(** ** Fetching one case *)

Lemma select_case_none t id :
  case_exists t id = false ->
  filter (fun r => cases.case_id r =? id) (CASES t) = [].
Proof.
  unfold case_exists. induction (CASES t) as [| r l IH]; simpl; auto.
  destruct (cases.case_id r =? id); simpl; [discriminate | exact IH].
Qed.

Lemma select_case_some t id :
  case_exists t id = true ->
  exists row rest,
    filter (fun r => cases.case_id r =? id) (CASES t) = row :: rest
    /\ In row (CASES t) /\ cases.case_id row = id.
Proof.
  unfold case_exists. induction (CASES t) as [| r l IH]; simpl; [discriminate |].
  destruct (Z.eqb_spec (cases.case_id r) id) as [E | N]; simpl.
  - intros _. exists r, (filter (fun r => cases.case_id r =? id) l). auto.
  - intros H. destruct (IH H) as [row [rest [F [I E]]]].
    exists row, rest. auto.
Qed.

(** C5. In both entry points, with a driver that reports no fault, fetching
    a case by an identifier that no row carries raises
    [HTTPException(404, "Case not found")], and fetching by the identifier of
    a stored case returns the fourteen columns of a row with that identifier;
    and whatever the driver does, what the handler raises is an
    [HTTPException], never the driver's own exception. *)
Theorem get_case_not_found_or_record :
  forall db eng fs id,
    (healthy fs -> case_exists db id = false ->
       fst (Main.get_case id (request db eng fs))
         = Raise (Py.HTTPException 404 "Case not found")
       /\ fst (App.get_case id (request db eng fs))
         = Raise (Py.HTTPException 404 "Case not found"))
    /\ (healthy fs -> case_exists db id = true ->
        exists row d,
          In row (CASES db) /\ cases.case_id row = id /\ full_record row d
          /\ fst (Main.get_case id (request db eng fs)) = Return d
          /\ fst (App.get_case id (request db eng fs)) = Return d)
    /\ (forall e,
          fst (Main.get_case id (request db eng fs)) = Raise e
          \/ fst (App.get_case id (request db eng fs)) = Raise e ->
          exists code detail, e = Py.HTTPException code detail).
Proof.
  intros db eng fs id. split; [| split].
  - intros H Hid. apply select_case_none in Hid.
    split; (next_call fs H; [| next_call fs H ]; run; now rewrite Hid).
  - intros H Hid. apply select_case_some in Hid.
    destruct Hid as [row [rest [F [I E]]]].
    exists row. eexists. split; [exact I |]. split; [exact E |].
    split; [| split;
      (next_call fs H; [| next_call fs H ]; run; rewrite F; reflexivity) ].
    unfold full_record. cbn. repeat split; reflexivity.
  - intros e [R | R]; revert R;
      (any_call fs; [| | any_call fs ]; run;
       try (destruct (filter _ (CASES db)));
       intros R; inversion R; subst; eauto).
Qed.

(** ** The content hasher *)









(** ** Uploading documents *)

Lemma hash_matches_iff (d : documents.row) h :
  is_true (eq_varchar (documents.document_hash d) h) = true
  <-> documents.document_hash d = Some h.
Proof.
  unfold eq_varchar. destruct (documents.document_hash d) as [x |]; simpl.
  - destruct (String.eqb_spec x h) as [-> | N]; split; intros E;
      auto; try discriminate. congruence.
  - split; discriminate.
Qed.

Lemma hash_exists_false_count t h :
  hash_exists t h = false -> count_hash h t = 0%nat.
Proof.
  unfold hash_exists, count_hash.
  induction (DOCUMENTS t) as [| d l IH]; simpl; auto.
  intros H. apply Bool.orb_false_elim in H. destruct H as [Hd Hl].
  destruct (status_eq_dec (documents.document_hash d) (Some h)) as [E | _].
  - apply hash_matches_iff in E. congruence.
  - auto.
Qed.

Lemma hash_exists_count t h :
  (0 < count_hash h t)%nat -> hash_exists t h = true.
Proof.
  intros H. destruct (hash_exists t h) eqn:E; auto.
  apply hash_exists_false_count in E. lia.
Qed.

Lemma count_hash_snoc c ds hs d h :
  documents.document_hash d = Some h ->
  count_hash h (mk_tables c (ds ++ [d]) hs)
  = S (count_hash h (mk_tables c ds hs)).
Proof.
  unfold count_hash. cbn [DOCUMENTS]. intros E.
  rewrite map_app, count_occ_app. cbn [map count_occ]. rewrite E.
  destruct (status_eq_dec (Some h) (Some h)); [lia | congruence].
Qed.

(** An upload whose hash is already in [documents] raises 500 and leaves
    the committed tables alone; with a healthy driver the text is the
    engine's unique-constraint error. *)
Lemma upload_of_stored_hash db eng fs id name type uploader content :
  hash_exists db (Hashlib.hexdigest content) = true ->
  exists detail w,
    Main.upload_document id name type uploader content (request db eng fs)
    = (Raise (Py.HTTPException 500 detail), w)
    /\ committed w = db
    /\ (healthy fs -> detail = ORA_00001).
Proof.
  intros Hh.
  any_call fs; [| | any_call fs ]; run; rewrite ?Hh, ?Bool.orb_true_r;
    do 2 eexists; (split; [reflexivity | split; [reflexivity |]]);
    intros H; auto;
    repeat (apply healthy_cons in H; destruct H as [? H]); discriminate.
Qed.

(** An upload that returns appended one row, carrying the hash of the
    content, to a table that had no row with that hash. *)
Lemma upload_returns db eng fs id name type uploader content r w :
  Main.upload_document id name type uploader content (request db eng fs)
  = (Return r, w) ->
  hash_exists db (Hashlib.hexdigest content) = false
  /\ exists d,
       documents.document_hash d = Some (Hashlib.hexdigest content)
       /\ documents.case_id d = Some id
       /\ committed w = mk_tables (CASES db) (DOCUMENTS db ++ [d]) (HEARINGS db).
Proof.
  any_call fs; [| | any_call fs; [| | any_call fs] ]; run;
    try discriminate;
    destruct (existsb _ (DOCUMENTS db)); cbn [orb]; try discriminate;
    destruct (hash_exists db (Hashlib.hexdigest content));
    try discriminate;
    destruct (case_exists db id); cbn [negb]; try discriminate;
    intros R; inversion R; subst; clear R;
    (split; [reflexivity | eexists; repeat split; reflexivity]).
Qed.

(** C4. After an upload that returned, uploading the same content again, to
    the same or another case, under any name, raises (HTTP 500; with a
    healthy driver, for the unique constraint on the hash), leaves the
    committed tables as they were, and exactly one [documents] row carries
    that hash. *)
Theorem duplicate_upload_fails :
  forall db eng fs1 fs2 id1 id2 name1 name2 type1 type2 by1 by2 content r1 w1,
    Main.upload_document id1 name1 type1 by1 content (request db eng fs1)
    = (Return r1, w1) ->
    exists detail w2,
      Main.upload_document id2 name2 type2 by2 content
        (request (committed w1) (engine w1) fs2)
      = (Raise (Py.HTTPException 500 detail), w2)
      /\ (healthy fs2 -> detail = ORA_00001)
      /\ committed w2 = committed w1
      /\ count_hash (Hashlib.hexdigest content) (committed w2) = 1%nat.
Proof.
  intros db eng fs1 fs2 id1 id2 name1 name2 type1 type2 by1 by2 content r1 w1 U.
  apply upload_returns in U. destruct U as [Hno [d [Hd [_ Hw]]]].
  assert (count_hash (Hashlib.hexdigest content) (committed w1) = 1%nat) as C.
  { rewrite Hw, (count_hash_snoc _ _ _ _ _ Hd).
    rewrite tables_eta. now rewrite (hash_exists_false_count _ _ Hno). }
  destruct (upload_of_stored_hash (committed w1) (engine w1) fs2 id2 name2
              type2 by2 content) as [detail [w2 [R [K Hd2]]]].
  { apply hash_exists_count. lia. }
  exists detail, w2. rewrite K. auto.
Qed.

(** ** Deleting a case *)

Lemma eq_number_iff (c : option Z) id :
  is_true (eq_number c id) = true <-> c = Some id.
Proof.
  unfold eq_number. destruct c as [x |]; simpl.
  - destruct (Z.eqb_spec x id) as [-> | N]; split; intros E;
      auto; try discriminate. congruence.
  - split; discriminate.
Qed.

Lemma not_eq_number_iff (c : option Z) id :
  negb (is_true (eq_number c id)) = true <-> c <> Some id.
Proof.
  rewrite Bool.negb_true_iff, <- Bool.not_true_iff_false.
  now rewrite eq_number_iff.
Qed.

Lemma existsb_filter_negb {A} (p : A -> bool) l :
  existsb p (filter (fun x => negb (p x)) l) = false.
Proof.
  induction l as [| x l IH]; simpl; auto.
  destruct (p x) eqn:E; simpl; auto. now rewrite E.
Qed.

Lemma no_children_after_deletes c ds hs id :
  has_children
    (mk_tables c
       (filter (fun d => negb (is_true (eq_number (documents.case_id d) id))) ds)
       (filter (fun h => negb (is_true (eq_number (hearings.case_id h) id))) hs))
    id = false.
Proof.
  unfold has_children. cbn [DOCUMENTS HEARINGS].
  rewrite (existsb_filter_negb
             (fun d => is_true (eq_number (documents.case_id d) id))).
  rewrite (existsb_filter_negb
             (fun h => is_true (eq_number (hearings.case_id h) id))).
  reflexivity.
Qed.

Lemma no_children_without_hearings c ds hs id :
  (forall h, In h hs -> hearings.case_id h <> Some id) ->
  has_children
    (mk_tables c
       (filter (fun d => negb (is_true (eq_number (documents.case_id d) id))) ds)
       hs)
    id = false.
Proof.
  intros H. unfold has_children. cbn [DOCUMENTS HEARINGS].
  rewrite (existsb_filter_negb
             (fun d => is_true (eq_number (documents.case_id d) id))).
  cbn [orb]. destruct (existsb _ hs) eqn:E; auto.
  apply existsb_exists in E. destruct E as [h [I E]].
  apply eq_number_iff in E. now apply H in I.
Qed.

Lemma filtered_hearings id hs h :
  In h (filter (fun h => negb (is_true (eq_number (hearings.case_id h) id))) hs)
  <-> In h hs /\ hearings.case_id h <> Some id.
Proof. now rewrite filter_In, not_eq_number_iff. Qed.

Lemma filtered_documents id ds d :
  In d (filter (fun d => negb (is_true (eq_number (documents.case_id d) id))) ds)
  <-> In d ds /\ documents.case_id d <> Some id.
Proof. now rewrite filter_In, not_eq_number_iff. Qed.

Lemma filtered_cases id cs r :
  In r (filter (fun r => negb (cases.case_id r =? id)) cs)
  <-> In r cs /\ cases.case_id r <> id.
Proof.
  rewrite filter_In, Bool.negb_true_iff, Z.eqb_neq. reflexivity.
Qed.

(** [main.py], healthy driver: the outcome, the committed tables and the
    driver calls of a delete. *)
Lemma main_delete_healthy db eng fs id :
  healthy fs ->
  fst (Main.delete_case id (request db eng fs)) = Return success_of_delete
  /\ committed (snd (Main.delete_case id (request db eng fs)))
     = mk_tables
         (filter (fun r => negb (cases.case_id r =? id)) (CASES db))
         (filter (fun d => negb (is_true (eq_number (documents.case_id d) id)))
                 (DOCUMENTS db))
         (filter (fun h => negb (is_true (eq_number (hearings.case_id h) id)))
                 (HEARINGS db))
  /\ trace (snd (Main.delete_case id (request db eng fs)))
     = [Connect; Execute DELETE T_HEARINGS; Execute DELETE T_DOCUMENTS;
        Execute DELETE T_CASES; Commit; CursorClose; Close].
Proof.
  intros H.
  next_call fs H;
    [| next_call fs H;
       [| next_call fs H; [| next_call fs H; [| next_call fs H ]]]];
    run; cbn [CASES DOCUMENTS HEARINGS];
    rewrite no_children_after_deletes, Bool.andb_false_r;
    repeat split; reflexivity.
Qed.

(** [app.py], healthy driver, no hearing of the case. *)
Lemma app_delete_healthy db eng fs id :
  healthy fs ->
  (forall h, In h (HEARINGS db) -> hearings.case_id h <> Some id) ->
  fst (App.delete_case id (request db eng fs)) = Return success_of_delete
  /\ committed (snd (App.delete_case id (request db eng fs)))
     = mk_tables
         (filter (fun r => negb (cases.case_id r =? id)) (CASES db))
         (filter (fun d => negb (is_true (eq_number (documents.case_id d) id)))
                 (DOCUMENTS db))
         (HEARINGS db)
  /\ trace (snd (App.delete_case id (request db eng fs)))
     = [Connect; Execute DELETE T_DOCUMENTS; Execute DELETE T_CASES; Commit;
        CursorClose; Close].
Proof.
  intros H Hh.
  next_call fs H;
    [| next_call fs H; [| next_call fs H; [| next_call fs H ]]];
    run; cbn [CASES DOCUMENTS HEARINGS];
    rewrite (no_children_without_hearings _ _ _ _ Hh), Bool.andb_false_r;
    repeat split; reflexivity.
Qed.

(** [app.py] never changes [hearings]. *)
Lemma app_delete_keeps_hearings db eng fs id :
  HEARINGS (committed (snd (App.delete_case id (request db eng fs))))
  = HEARINGS db.
Proof.
  any_call fs;
    [| | any_call fs; [| | any_call fs; [| | any_call fs ]]];
    run; cbn [CASES DOCUMENTS HEARINGS];
    repeat match goal with
           | |- context [if ?b then _ else _] => destruct b
           end; reflexivity.
Qed.

(** Whatever the driver does, a delete that returns has removed the case:
    with its hearings in [main.py], without looking at them in [app.py]. *)
Lemma main_delete_returns db eng fs id a w :
  Main.delete_case id (request db eng fs) = (Return a, w) ->
  a = success_of_delete /\ case_removed id db (committed w).
Proof.
  any_call fs;
    [| | any_call fs;
         [| | any_call fs; [| | any_call fs; [| | any_call fs ]]]];
    run; cbn [CASES DOCUMENTS HEARINGS];
    repeat match goal with
           | |- context [if ?b then _ else _] => destruct b
           end;
    intros R; inversion R; subst; clear R; cbn [committed];
    (split; [reflexivity |]);
    unfold case_removed; cbn [CASES DOCUMENTS HEARINGS];
    (split; [| split]); intros x;
    first [ apply filtered_hearings | apply filtered_documents
          | apply filtered_cases ].
Qed.

Lemma app_delete_returns db eng fs id a w :
  App.delete_case id (request db eng fs) = (Return a, w) ->
  a = success_of_delete /\ case_and_documents_removed id db (committed w).
Proof.
  any_call fs;
    [| | any_call fs; [| | any_call fs; [| | any_call fs ]]];
    run; cbn [CASES DOCUMENTS HEARINGS];
    repeat match goal with
           | |- context [if ?b then _ else _] => destruct b
           end;
    intros R; inversion R; subst; clear R; cbn [committed];
    (split; [reflexivity |]);
    unfold case_and_documents_removed; cbn [CASES DOCUMENTS HEARINGS];
    (split; [reflexivity | split]); intros x;
    first [ apply filtered_documents | apply filtered_cases ].
Qed.

(** C1, as the code has it. With a driver that reports no fault, the delete
    of [main.py] issues DELETE on [hearings], then on [documents], then on
    [cases], commits, and leaves no hearing, no document and no [cases] row
    of the case, every other row being kept. The delete of [app.py] has no
    statement on [hearings] and never changes that table; when no hearing
    refers to the case it issues DELETE on [documents], then on [cases],
    commits, and leaves no document and no [cases] row of the case. *)
Theorem delete_case_cascade :
  forall db eng fs id,
    (healthy fs ->
       fst (Main.delete_case id (request db eng fs)) = Return success_of_delete
       /\ case_removed id db
            (committed (snd (Main.delete_case id (request db eng fs))))
       /\ trace (snd (Main.delete_case id (request db eng fs)))
          = [Connect; Execute DELETE T_HEARINGS; Execute DELETE T_DOCUMENTS;
             Execute DELETE T_CASES; Commit; CursorClose; Close])
    /\ HEARINGS (committed (snd (App.delete_case id (request db eng fs))))
       = HEARINGS db
    /\ (healthy fs ->
        (forall h, In h (HEARINGS db) -> hearings.case_id h <> Some id) ->
        fst (App.delete_case id (request db eng fs)) = Return success_of_delete
        /\ case_and_documents_removed id db
             (committed (snd (App.delete_case id (request db eng fs))))
        /\ trace (snd (App.delete_case id (request db eng fs)))
           = [Connect; Execute DELETE T_DOCUMENTS; Execute DELETE T_CASES;
              Commit; CursorClose; Close]).
Proof.
  intros db eng fs id. split; [| split].
  - intros H. destruct (main_delete_healthy db eng fs id H) as [R [C T]].
    split; [exact R |]. split; [| exact T].
    rewrite C. unfold case_removed. cbn [CASES DOCUMENTS HEARINGS].
    split; [| split]; intros x.
    + apply filtered_hearings.
    + apply filtered_documents.
    + apply filtered_cases.
  - apply app_delete_keeps_hearings.
  - intros H Hh.
    destruct (app_delete_healthy db eng fs id H Hh) as [R [C T]].
    split; [exact R |]. split; [| exact T].
    rewrite C. unfold case_and_documents_removed. cbn [CASES DOCUMENTS HEARINGS].
    split; [reflexivity |]. split; intros x.
    + apply filtered_documents.
    + apply filtered_cases.
Qed.

(** Closes a goal [~ In ev l] on an explicit list of driver calls. *)
Ltac not_among :=
  cbn [In]; intros K;
  repeat match goal with
         | K : _ \/ _ |- _ => destruct K as [K | K]
         end; try discriminate K; try contradiction.

(** Gives the driver calls between [Connect] and [Rollback] and closes
    what is said of them. *)
Ltac rolled_back_after calls :=
  refine (ex_intro _ calls _);
  (split; [reflexivity |]);
  (split; [not_among |]); (split; [not_among |]);
  first [ reflexivity | split; [reflexivity | eexists; reflexivity] ].

Ltac rolled_back :=
  first [ rolled_back_after uconstr:([_])
        | rolled_back_after uconstr:([_; _])
        | rolled_back_after uconstr:([_; _; _])
        | rolled_back_after uconstr:([_; _; _; _]) ].

(** C2. In both entry points a delete that raises has deleted nothing,
    whatever the driver did: the committed tables are what they were.  Either
    no connection was obtained (500), or the handler called [rollback] once,
    after its last statement and before closing the cursor and the
    connection and letting the error out; when that rollback went through,
    the connection saw the tables as they were again before the error was
    let out, and the error is an [HTTPException] with status 500; when the
    rollback itself raised, it is the driver's exception that comes out, and
    still nothing has been deleted. *)
Theorem delete_case_all_or_nothing :
  forall db eng fs rb id e w,
    Main.delete_case id (request_with db eng fs rb) = (Raise e, w)
    \/ App.delete_case id (request_with db eng fs rb) = (Raise e, w) ->
    committed w = db
    /\ ((trace w = [Connect] /\ conn w = None
         /\ exists detail, e = Py.HTTPException 500 detail)
        \/ exists calls,
             trace w
             = (Connect :: calls ++ [Rollback; CursorClose; Close])%list
             /\ ~ In Rollback calls /\ ~ In Close calls
             /\ match rb with
                | None =>
                    conn w = Some db
                    /\ exists detail, e = Py.HTTPException 500 detail
                | Some msg => e = Py.DatabaseError msg
                end).
Proof.
  intros db eng fs rb id e w [R | R]; revert R.
  - destruct rb as [rmsg |];
      (any_call fs;
         [| | any_call fs;
              [| | any_call fs; [| | any_call fs; [| | any_call fs ]]]]);
      run; cbn [CASES DOCUMENTS HEARINGS];
      repeat match goal with
             | |- context [if ?b then _ else _] => destruct b
             end;
      intros R; inversion R; subst; clear R; cbn [committed trace conn];
      (split; [reflexivity |]);
      first
        [ left; split; [reflexivity | split; [reflexivity |]];
          eexists; reflexivity
        | right; rolled_back ].
  - destruct rb as [rmsg |];
      (any_call fs;
         [| | any_call fs; [| | any_call fs; [| | any_call fs ]]]);
      run; cbn [CASES DOCUMENTS HEARINGS];
      repeat match goal with
             | |- context [if ?b then _ else _] => destruct b
             end;
      intros R; inversion R; subst; clear R; cbn [committed trace conn];
      (split; [reflexivity |]);
      first
        [ left; split; [reflexivity | split; [reflexivity |]];
          eexists; reflexivity
        | right; rolled_back ].
Qed.

(** ** Searching *)

(** *** LIKE on a pattern [%q%] *)

Lemma like_percent p s :
  like ("%"%char :: p) s
  = like p s || match s with [] => false | _ :: s' => like ("%"%char :: p) s' end.
Proof. destruct s; reflexivity. Qed.

Lemma like_literal c p s :
  literal c ->
  like (c :: p) s
  = match s with [] => false | x :: s' => Ascii.eqb c x && like p s' end.
Proof.
  intros [N1 N2]. cbn [like].
  apply Ascii.eqb_neq in N1. apply Ascii.eqb_neq in N2.
  rewrite N1. destruct s; auto. now rewrite N2.
Qed.

Lemma like_any s : like ["%"%char] s = true.
Proof.
  induction s as [| x s IH]; [reflexivity |].
  rewrite like_percent. rewrite IH. apply Bool.orb_true_r.
Qed.

(** A wildcard-free pattern followed by [%] matches the strings it begins. *)
Lemma like_prefix q s :
  Forall literal q ->
  like (q ++ ["%"%char]) s = true <-> exists post, s = (q ++ post)%list.
Proof.
  intros Hq. revert s.
  induction Hq as [| c q Hc Hq IH]; intros s.
  - cbn [app]. rewrite like_any. split; auto. intros _. now exists s.
  - cbn [app]. rewrite (like_literal c _ s Hc). destruct s as [| x s].
    + split; [discriminate | intros [post E]; discriminate].
    + rewrite Bool.andb_true_iff, Ascii.eqb_eq, IH. split.
      * intros [-> [post ->]]. now exists post.
      * intros [post E]. inversion E; subst. split; auto. now exists post.
Qed.

(** [%] followed by a pattern matches the strings an end of which the
    pattern matches. *)
Lemma like_suffix p s :
  like ("%"%char :: p) s = true
  <-> exists pre rest, s = (pre ++ rest)%list /\ like p rest = true.
Proof.
  induction s as [| x s IH]; rewrite like_percent.
  - rewrite Bool.orb_false_r. split.
    + intros H. now exists [], [].
    + intros [pre [rest [E H]]].
      symmetry in E. apply app_eq_nil in E. destruct E as [-> ->]. exact H.
  - rewrite Bool.orb_true_iff, IH. split.
    + intros [H | [pre [rest [-> H]]]].
      * now exists [], (x :: s).
      * now exists (x :: pre), rest.
    + intros [pre [rest [E H]]]. destruct pre as [| y pre].
      * cbn [app] in E. subst rest. now left.
      * cbn [app] in E. inversion E; subst. right. now exists pre, rest.
Qed.

Lemma like_infix q s :
  Forall literal q ->
  like ("%"%char :: q ++ ["%"%char]) s = true
  <-> exists pre post, s = (pre ++ q ++ post)%list.
Proof.
  intros Hq. rewrite like_suffix. split.
  - intros [pre [rest [-> H]]]. apply (like_prefix q rest Hq) in H.
    destruct H as [post ->]. now exists pre, post.
  - intros [pre [post ->]]. exists pre, (q ++ post)%list. split; auto.
    apply (like_prefix q _ Hq). now exists post.
Qed.

(** *** UPPER *)

Lemma upper_char_literal c : literal c -> literal (upper_char c).
Proof.
  unfold literal.
  destruct c as [[|] [|] [|] [|] [|] [|] [|] [|]];
    intros [N1 N2]; split; intros E; cbv in E;
    try discriminate E; try (now apply N1); try (now apply N2).
Qed.

Lemma same_letter_map q mid :
  Forall2 same_letter q mid <-> map upper_char q = map upper_char mid.
Proof.
  split.
  - induction 1 as [| a b q mid Hab _ IH]; cbn [map]; auto.
    unfold same_letter in Hab. now rewrite Hab, IH.
  - revert mid. induction q as [| a q IH]; intros [| b mid] E;
      try discriminate; constructor; cbn [map] in E; inversion E; auto.
Qed.

Lemma list_ascii_of_string_app a b :
  list_ascii_of_string (a ++ b)
  = (list_ascii_of_string a ++ list_ascii_of_string b)%list.
Proof. induction a as [| c a IH]; cbn; auto. now rewrite IH. Qed.

(** The uppercased pattern of [search_cases] for a query [q]. *)
Lemma upper_pattern q :
  list_ascii_of_string
    (string_of_list_ascii
       (map upper_char (list_ascii_of_string ("%" ++ q ++ "%"))))
  = ("%"%char :: map upper_char (list_ascii_of_string q) ++ ["%"%char])%list.
Proof.
  rewrite list_ascii_of_string_of_list_ascii.
  rewrite !list_ascii_of_string_app. cbn [list_ascii_of_string app map].
  rewrite map_app. reflexivity.
Qed.

(** One disjunct of the WHERE clause. *)
Lemma like_upper_field q (f : option string) :
  wildcard_free q ->
  is_true (LIKE (UPPER f) (UPPER (Some ("%" ++ q ++ "%")))) = true
  <-> field_contains q f.
Proof.
  intros Hq. unfold field_contains, ci_substring.
  destruct f as [s |]; cbn [UPPER option_map LIKE is_true].
  - rewrite upper_pattern, list_ascii_of_string_of_list_ascii.
    assert (Forall literal (map upper_char (list_ascii_of_string q))) as Hu.
    { unfold wildcard_free in Hq. induction Hq; cbn [map]; constructor; auto.
      now apply upper_char_literal. }
    destruct (like _ _) eqn:L.
    + apply (like_infix _ _ Hu) in L. destruct L as [pre' [post' E]].
      split; auto. intros _. exists s. split; auto.
      apply map_eq_app in E. destruct E as [pre [tl [Es [_ E]]]].
      apply map_eq_app in E. destruct E as [mid [post [Et [Em _]]]].
      exists pre, mid, post. subst tl. split; auto.
      now apply same_letter_map.
    + split; [discriminate |].
      intros [s' [Es [pre [mid [post [E F]]]]]]. inversion Es; subst s'.
      apply same_letter_map in F.
      assert (like ("%"%char :: map upper_char (list_ascii_of_string q)
                      ++ ["%"%char])
                   (map upper_char (list_ascii_of_string s)) = true) as T.
      { apply (like_infix _ _ Hu).
        exists (map upper_char pre), (map upper_char post).
        now rewrite E, !map_app, F. }
      congruence.
  - split; [discriminate | intros [s [E _]]; discriminate].
Qed.

Lemma is_true_sql_or a b :
  is_true (sql_or a b) = is_true a || is_true b.
Proof. destruct a as [[|] |], b as [[|] |]; reflexivity. Qed.

(** The WHERE clause of the search. *)
Lemma search_where_spec q r :
  wildcard_free q ->
  is_true (Sql.search_where ("%" ++ q ++ "%") r) = true <-> matches_query q r.
Proof.
  intros Hq. unfold Sql.search_where, matches_query.
  rewrite !is_true_sql_or, !Bool.orb_true_iff.
  rewrite !(like_upper_field q _ Hq). tauto.
Qed.

(** *** ORDER BY *)

Lemma lex_leb_total a b : lex_leb a b = false -> lex_leb b a = true.
Proof.
  revert b. induction a as [| x a IH]; intros [| y b]; cbn [lex_leb];
    try discriminate; auto.
  destruct (N.ltb_spec x y) as [L | L]; [discriminate |].
  destruct (N.ltb_spec y x) as [L' | L']; auto.
Qed.

Lemma desc_leb_total a b : desc_leb a b = false -> desc_leb b a = true.
Proof.
  destruct a as [x |], b as [y |]; cbn [desc_leb]; auto; try discriminate.
  apply lex_leb_total.
Qed.

Section OrderByFacts.
Context {A : Type} (key : A -> option Py.datetime).

Lemma insert_desc_perm x l : Permutation (x :: l) (insert_desc key x l).
Proof.
  induction l as [| y l IH]; cbn [insert_desc]; auto.
  destruct (desc_leb (key y) (key x)); auto.
  rewrite perm_swap. now constructor.
Qed.

Lemma insert_desc_hd x y l :
  listed_before key y x ->
  HdRel (listed_before key) y l ->
  HdRel (listed_before key) y (insert_desc key x l).
Proof.
  intros Hyx H. destruct l as [| z l]; cbn [insert_desc].
  - now constructor.
  - inversion H; subst. destruct (desc_leb (key z) (key x)); now constructor.
Qed.

Lemma insert_desc_sorted x l :
  Sorted (listed_before key) l ->
  Sorted (listed_before key) (insert_desc key x l).
Proof.
  induction 1 as [| y l Hs IH Hh]; cbn [insert_desc].
  - repeat constructor.
  - destruct (desc_leb (key y) (key x)) eqn:E.
    + constructor; auto. now apply insert_desc_hd.
    + apply desc_leb_total in E. repeat constructor; auto.
Qed.

Lemma order_by_from acc l :
  Sorted (listed_before key) acc ->
  Sorted (listed_before key) (fold_left (fun acc x => insert_desc key x acc) l acc)
  /\ Permutation (acc ++ l)
       (fold_left (fun acc x => insert_desc key x acc) l acc).
Proof.
  revert acc. induction l as [| x l IH]; intros acc Hs; cbn [fold_left].
  - rewrite app_nil_r. auto.
  - destruct (IH (insert_desc key x acc) (insert_desc_sorted x acc Hs))
      as [S P].
    split; auto. rewrite <- P.
    rewrite <- Permutation_middle.
    apply (Permutation_app_tail l (insert_desc_perm x acc)).
Qed.

Lemma order_by_desc_spec l :
  Sorted (listed_before key) (ORDER_BY_DESC key l)
  /\ Permutation l (ORDER_BY_DESC key l).
Proof. apply (order_by_from [] l). constructor. Qed.
End OrderByFacts.

Lemma filter_split {A} (p : A -> bool) l :
  Permutation (filter p l ++ filter (fun x => negb (p x)) l) l.
Proof.
  induction l as [| x l IH]; cbn [filter]; auto.
  destruct (p x); cbn [negb app].
  - now constructor.
  - rewrite <- Permutation_middle. now constructor.
Qed.

(** *** Deciding [ci_substring] *)

Lemma ci_prefixb_spec q s :
  ci_prefixb q s = true
  <-> exists mid post, s = (mid ++ post)%list /\ Forall2 same_letter q mid.
Proof.
  revert s. induction q as [| a q IH]; intros s; cbn [ci_prefixb].
  - split; auto. intros _. exists [], s. split; [reflexivity | constructor].
  - destruct s as [| b s].
    + split; [discriminate |]. intros [mid [post [E F]]].
      inversion F; subst. discriminate.
    + rewrite Bool.andb_true_iff, Ascii.eqb_eq, IH. split.
      * intros [Hab [mid [post [-> F]]]].
        exists (b :: mid), post. split; [reflexivity | now constructor].
      * intros [mid [post [E F]]]. inversion F; subst.
        cbn [app] in E. inversion E; subst.
        split; [assumption | now exists l', post].
Qed.

Lemma ci_infixb_spec q s :
  ci_infixb q s = true
  <-> exists pre mid post,
        s = (pre ++ mid ++ post)%list /\ Forall2 same_letter q mid.
Proof.
  induction s as [| b s IH]; cbn [ci_infixb];
    rewrite Bool.orb_true_iff, ci_prefixb_spec.
  - split.
    + intros [[mid [post [E F]]] | H]; [| discriminate].
      now exists [], mid, post.
    + intros [pre [mid [post [E F]]]]. left.
      symmetry in E. apply app_eq_nil in E. destruct E as [-> E].
      now exists mid, post.
  - rewrite IH. split.
    + intros [[mid [post [E F]]] | [pre [mid [post [-> F]]]]].
      * now exists [], mid, post.
      * now exists (b :: pre), mid, post.
    + intros [pre [mid [post [E F]]]]. destruct pre as [| x pre].
      * left. now exists mid, post.
      * cbn [app] in E. inversion E; subst. right. now exists pre, mid, post.
Qed.

Lemma field_containsb_spec q f :
  field_containsb q f = true <-> field_contains q f.
Proof.
  unfold field_containsb, field_contains, ci_substring.
  destruct f as [s |].
  - rewrite ci_infixb_spec. split.
    + intros H. now exists s.
    + intros [s' [E H]]. now inversion E; subst.
  - split; [discriminate | intros [s [E _]]; discriminate].
Qed.

(** C9, as the code has it. For a query without the LIKE wildcards [%] and
    [_], and a driver that reports no fault, [search(query)] returns the
    summaries of exactly the cases in which the query occurs, letter case
    apart, in the title, the client name, the lawyer name or the case type
    (the description is not looked at), the latest creation timestamp
    first. *)
Theorem search_cases_wildcard_free :
  forall db eng fs query,
    healthy fs ->
    wildcard_free query ->
    exists rows rest,
      fst (Main.search_cases query (request db eng fs))
      = Return (map Main.summary rows)
      /\ Permutation (rows ++ rest) (CASES db)
      /\ Forall (matches_query query) rows
      /\ Forall (fun r => ~ matches_query query r) rest
      /\ Sorted not_older rows.
Proof.
  intros db eng fs query H Hq.
  set (p := fun r => is_true (Sql.search_where ("%" ++ query ++ "%") r)).
  destruct (order_by_desc_spec cases.created_at (filter p (CASES db)))
    as [S P].
  exists (ORDER_BY_DESC cases.created_at (filter p (CASES db))),
         (filter (fun r => negb (p r)) (CASES db)).
  split; [| split; [| split; [| split]]].
  - next_call fs H; [| next_call fs H ]; run; reflexivity.
  - rewrite <- P. apply filter_split.
  - apply Forall_forall. intros r I.
    apply (Permutation_in r (Permutation_sym P)) in I.
    apply filter_In in I. destruct I as [_ I].
    now apply (search_where_spec query r Hq).
  - apply Forall_forall. intros r I M.
    apply filter_In in I. destruct I as [_ I].
    apply (search_where_spec query r Hq) in M.
    unfold p in I. rewrite M in I. discriminate.
  - exact S.
Qed.

(* ===================================================================== *)
(** * Concrete runs *)
(* ===================================================================== *)

Lemma healthy_nil : healthy [].
Proof. constructor. Defined.

(** The search of the specification: "Smith" finds the case whose client is
    John Smith and the one whose lawyer is Jane SMITH, the later one first,
    and not the case that has Smith in its description only. *)
Example search_smith :
  fst (Main.search_cases "Smith" (request sample_db sample_engine []))
  = Return [Main.summary smith_lawyer; Main.summary smith_client]
  /\ matches_query "Smith" smith_client
  /\ matches_query "Smith" smith_lawyer
  /\ ~ matches_query "Smith" smith_described
  /\ field_contains "Smith" (cases.description smith_described).
Proof.
  split; [reflexivity |].
  split; [right; left; now apply field_containsb_spec |].
  split; [right; right; left; now apply field_containsb_spec |].
  split; [| now apply field_containsb_spec].
  intros [H | [H | [H | H]]]; apply field_containsb_spec in H; discriminate H.
Qed.

(** C1, counterexample. On the sample tables, where case 1 has a hearing,
    the delete of [app.py] with a healthy driver is refused by the engine
    (the hearing still refers to the case): it raises 500, and the hearing,
    the document and the case are all still there. *)
Lemma app_delete_case_keeps_hearing :
  fst (App.delete_case 1 (request sample_db sample_engine []))
  = Raise (Py.HTTPException 500 ORA_02292)
  /\ committed (snd (App.delete_case 1 (request sample_db sample_engine [])))
     = sample_db
  /\ In sample_hearing
        (HEARINGS (committed (snd (App.delete_case 1
                                     (request sample_db sample_engine [])))))
  /\ hearings.case_id sample_hearing = Some 1
  /\ ~ case_removed 1 sample_db
         (committed (snd (App.delete_case 1
                            (request sample_db sample_engine [])))).
Proof.
  split; [reflexivity |]. split; [reflexivity |].
  split; [now left |]. split; [reflexivity |].
  intros [H _]. apply (proj1 (H sample_hearing)); [now left | reflexivity].
Qed.

Lemma delete_case_cascade_witness :
  healthy []
  /\ (fst (Main.delete_case 1 (request sample_db sample_engine []))
      = Return success_of_delete
      /\ case_removed 1 sample_db
           (committed (snd (Main.delete_case 1
                              (request sample_db sample_engine [])))))
  /\ (forall h, In h (HEARINGS sample_db) -> hearings.case_id h <> Some 2)
  /\ (fst (App.delete_case 2 (request sample_db sample_engine []))
      = Return success_of_delete
      /\ case_and_documents_removed 2 sample_db
           (committed (snd (App.delete_case 2
                              (request sample_db sample_engine []))))).
Proof.
  assert (forall h, In h (HEARINGS sample_db) -> hearings.case_id h <> Some 2)
    as Hh.
  { intros h [<- | []]. discriminate. }
  split; [exact healthy_nil |].
  split.
  - destruct (delete_case_cascade sample_db sample_engine [] 1) as [M _].
    destruct (M healthy_nil) as [R [C _]]. split; assumption.
  - split; [exact Hh |].
    destruct (delete_case_cascade sample_db sample_engine [] 2) as [_ [_ A]].
    destruct (A healthy_nil Hh) as [R [C _]]. split; assumption.
Defined.

(** A fault at the third DELETE of [main.py], after two statements went
    through: once with a rollback that goes through, once with a rollback
    that raises. *)
Lemma delete_case_all_or_nothing_witness :
  (exists w,
      Main.delete_case 1
        (request_with sample_db sample_engine
           [None; None; None; Some "ORA-03113"] None)
      = (Raise (Py.HTTPException 500 "ORA-03113"), w)
      /\ committed w = sample_db /\ conn w = Some sample_db)
  /\ (exists w,
         Main.delete_case 1
           (request_with sample_db sample_engine
              [None; None; None; Some "ORA-03113"] (Some "ORA-03114"))
         = (Raise (Py.DatabaseError "ORA-03114"), w)
         /\ committed w = sample_db).
Proof.
  split.
  - eexists. split; [vm_compute; reflexivity |].
    split; [| reflexivity].
    eapply (delete_case_all_or_nothing sample_db sample_engine
              [None; None; None; Some "ORA-03113"] None 1
              (Py.HTTPException 500 "ORA-03113")).
    left. vm_compute. reflexivity.
  - eexists. split; [vm_compute; reflexivity |].
    eapply (delete_case_all_or_nothing sample_db sample_engine
              [None; None; None; Some "ORA-03113"] (Some "ORA-03114") 1
              (Py.DatabaseError "ORA-03114")).
    left. vm_compute. reflexivity.
Defined.


(** The content "abc" uploaded to case 1, then again to case 2. *)
Lemma duplicate_upload_fails_witness :
  exists r1 w1,
    Main.upload_document 1 "deed.pdf" "pdf" "Jane Doe"
      (list_byte_of_string "abc")
      (request (mk_tables (CASES sample_db) [] []) sample_engine [])
    = (Return r1, w1)
    /\ exists detail w2,
         Main.upload_document 2 "copy.pdf" "pdf" "Ann Lee"
           (list_byte_of_string "abc")
           (request (committed w1) (engine w1) [])
         = (Raise (Py.HTTPException 500 detail), w2)
         /\ committed w2 = committed w1
         /\ count_hash (Hashlib.hexdigest (list_byte_of_string "abc"))
              (committed w2) = 1%nat.
Proof.
  eexists. eexists. split; [vm_compute; reflexivity |].
  destruct (duplicate_upload_fails
              (mk_tables (CASES sample_db) [] []) sample_engine [] []
              1 2 "deed.pdf" "copy.pdf" "pdf" "pdf" "Jane Doe" "Ann Lee"
              (list_byte_of_string "abc") _ _ eq_refl)
    as [detail [w2 [R [_ [K C]]]]].
  exists detail, w2. split; [exact R |]. split; [exact K | exact C].
Defined.

Lemma get_case_not_found_or_record_witness :
  healthy []
  /\ case_exists sample_db 7 = false
  /\ fst (Main.get_case 7 (request sample_db sample_engine []))
     = Raise (Py.HTTPException 404 "Case not found")
  /\ fst (App.get_case 7 (request sample_db sample_engine []))
     = Raise (Py.HTTPException 404 "Case not found")
  /\ case_exists sample_db 2 = true
  /\ exists row d,
       In row (CASES sample_db) /\ cases.case_id row = 2
       /\ full_record row d
       /\ fst (Main.get_case 2 (request sample_db sample_engine [])) = Return d
       /\ fst (App.get_case 2 (request sample_db sample_engine [])) = Return d.
Proof.
  split; [exact healthy_nil |]. split; [reflexivity |].
  destruct (get_case_not_found_or_record sample_db sample_engine [] 7)
    as [N _].
  destruct (N healthy_nil eq_refl) as [NM NA].
  split; [exact NM |]. split; [exact NA |]. split; [reflexivity |].
  destruct (get_case_not_found_or_record sample_db sample_engine [] 2)
    as [_ [F _]].
  exact (F healthy_nil eq_refl).
Defined.

Lemma update_of_missing_case_succeeds_witness :
  healthy []
  /\ case_exists sample_db 7 = false
  /\ fst (Main.update_case 7 sample_update (request sample_db sample_engine []))
     = Return (Ack.mk true "Case updated successfully")
  /\ fst (Main.update_case_status 7 (StatusUpdate.mk "Closed")
            (request sample_db sample_engine []))
     = Return (Ack.mk true "Status updated successfully").
Proof.
  split; [exact healthy_nil |]. split; [reflexivity |].
  destruct (update_of_missing_case_succeeds sample_db sample_engine [] 7
              sample_update (StatusUpdate.mk "Closed") healthy_nil eq_refl)
    as [[U _] [S _]].
  split; assumption.
Defined.

Lemma update_case_frame_witness :
  exists a w,
    Main.update_case 1 sample_update (request sample_db sample_engine [])
    = (Return a, w)
    /\ Forall2 (full_update_of sample_update 1)
         (CASES sample_db) (CASES (committed w))
    /\ DOCUMENTS (committed w) = DOCUMENTS sample_db
    /\ HEARINGS (committed w) = HEARINGS sample_db.
Proof.
  eexists. eexists. split; [reflexivity |].
  exact (update_case_frame sample_db sample_engine [] 1 sample_update _ _
           eq_refl).
Defined.

Lemma get_case_stats_counts_witness :
  healthy []
  /\ map cases.status (CASES five_cases)
     = [Some "Active"; Some "Active"; Some "Closed"; Some "Pending";
        Some "Archived"]
  /\ fst (Main.get_case_stats (request five_cases sample_engine []))
     = Return (Stats.mk 5 2 1 1).
Proof.
  split; [exact healthy_nil |]. split; [reflexivity |].
  destruct (get_case_stats_counts five_cases sample_engine [] healthy_nil)
    as [_ [_ E]].
  exact (E eq_refl).
Defined.

Lemma create_case_status_active_witness :
  exists r w,
    Main.create_case sample_create (request sample_db sample_engine [])
    = (Return r, w)
    /\ exists row,
         CASES (committed w) = (CASES sample_db ++ [row])%list
         /\ cases.case_id row = Created.case_id r
         /\ cases.status row = Some "Active"
         /\ cases.blockchain_tx row = None.
Proof.
  eexists. eexists. split; [reflexivity |].
  destruct (create_case_status_active sample_db sample_engine []
              sample_create _ _ eq_refl) as [row [C [I [S [B _]]]]].
  exists row. repeat split; assumption.
Defined.

(** C9, counterexample. The query [J_n] occurs in no field of the first two
    sample cases, yet the search returns both: [_] stands for the [a] of
    their lawyer's name. *)
Lemma search_underscore_is_wildcard :
  fst (Main.search_cases "J_n" (request sample_db sample_engine []))
  = Return [Main.summary smith_lawyer; Main.summary smith_client]
  /\ ~ matches_query "J_n" smith_client
  /\ ~ matches_query "J_n" smith_lawyer.
Proof.
  split; [reflexivity |].
  split; intros [H | [H | [H | H]]];
    apply field_containsb_spec in H; discriminate H.
Qed.

Lemma wildcard_free_Smith : wildcard_free "Smith".
Proof. repeat constructor; discriminate. Defined.

Lemma search_cases_wildcard_free_witness :
  healthy []
  /\ wildcard_free "Smith"
  /\ exists rows rest,
       fst (Main.search_cases "Smith" (request sample_db sample_engine []))
       = Return (map Main.summary rows)
       /\ Permutation (rows ++ rest) (CASES sample_db)
       /\ Forall (matches_query "Smith") rows
       /\ Forall (fun r => ~ matches_query "Smith" r) rest
       /\ Sorted not_older rows.
Proof.
  split; [exact healthy_nil |]. split; [exact wildcard_free_Smith |].
  exact (search_cases_wildcard_free sample_db sample_engine [] "Smith"
           healthy_nil wildcard_free_Smith).
Defined.

(* ===================================================================== *)
(** * Further properties of the handlers *)
(* ===================================================================== *)

(** Runs the handler combinators of the goal, the further handlers too. *)
Ltac run_more :=
  cbv beta iota zeta delta
    [Main.create_case Main.get_case Main.update_case Main.update_case_status
     Main.delete_case Main.search_cases Main.get_case_stats
     Main.upload_document App.get_case App.delete_case
     Main.get_all_cases Main.get_documents Main.verify_document
     Main.create_hearing Main.get_hearings Main.chat_with_groq
     Main.chat_with_ai Main.summarize_document Main.generate_legal_notice
     Main.health_check App.create_case App.get_all_cases
     App.update_case_status App.health_check
     try_finally try_except bind ret raise get_db_connection oracledb_connect
     assign_conn assign_cursor execute commit rollback conn_close cursor_close
     if_conn if_cursor release rollback_and_500 next_fault log request
     request_with rollback_fault
     fetchone hd_error committed engine faults conn cursor trace app
     Sql.on_tables Sql.insert_case Sql.select_case Sql.update_case
     Sql.update_status Sql.delete_hearings Sql.delete_documents
     Sql.delete_cases Sql.select_search Sql.select_stats Sql.insert_document
     Sql.select_cases Sql.select_documents Sql.select_document_by_hash
     Sql.insert_hearing Sql.select_hearings Sql.select_case_context
     fst snd].

(** Splits on every test the goal is stuck on. *)
Ltac split_tests :=
  repeat match goal with
         | |- context [if ?b then _ else _] => destruct b eqn:?
         | |- context [match ?x with inl _ => _ | inr _ => _ end] =>
             destruct x eqn:?
         | |- context [match ?x with [] => _ | _ :: _ => _ end] =>
             destruct x eqn:?
         end.

(** The two entry points share these handlers word for word. *)
Lemma app_handlers_same :
  App.create_case = Main.create_case
  /\ App.get_all_cases = Main.get_all_cases
  /\ App.update_case_status = Main.update_case_status
  /\ App.get_case = Main.get_case
  /\ App.health_check = Main.health_check.
Proof. repeat split. Qed.

(** ** Listings *)

(** X1. With a healthy driver, [get_all_cases] (both entry points) returns
    the summaries of all the stored cases, each once, the latest creation
    timestamp first. *)
Theorem get_all_cases_latest_first :
  forall db eng fs,
    healthy fs ->
    exists rows,
      fst (Main.get_all_cases (request db eng fs))
      = Return (map Main.summary rows)
      /\ fst (App.get_all_cases (request db eng fs))
         = Return (map Main.summary rows)
      /\ Permutation rows (CASES db)
      /\ Sorted not_older rows.
Proof.
  intros db eng fs H.
  destruct (order_by_desc_spec cases.created_at (CASES db)) as [S P].
  exists (ORDER_BY_DESC cases.created_at (CASES db)).
  split; [| split; [| split]].
  - next_call fs H; [| next_call fs H ]; run_more; reflexivity.
  - next_call fs H; [| next_call fs H ]; run_more; reflexivity.
  - now apply Permutation_sym.
  - exact S.
Qed.

Lemma get_all_cases_latest_first_witness :
  healthy []
  /\ exists rows,
       fst (Main.get_all_cases (request sample_db sample_engine []))
       = Return (map Main.summary rows)
       /\ fst (App.get_all_cases (request sample_db sample_engine []))
          = Return (map Main.summary rows)
       /\ Permutation rows (CASES sample_db)
       /\ Sorted not_older rows.
Proof.
  split; [exact healthy_nil |].
  exact (get_all_cases_latest_first sample_db sample_engine [] healthy_nil).
Defined.

(** X2. With a healthy driver, [get_documents(case_id)] returns exactly the
    documents of that case (an empty list when it has none), the latest
    upload first. *)
Theorem get_documents_of_case :
  forall db eng fs id,
    healthy fs ->
    exists rows rest,
      fst (Main.get_documents id (request db eng fs))
      = Return (map Main.document rows)
      /\ Permutation (rows ++ rest) (DOCUMENTS db)
      /\ Forall (fun d => documents.case_id d = Some id) rows
      /\ Forall (fun d => documents.case_id d <> Some id) rest
      /\ Sorted (listed_before documents.uploaded_at) rows.
Proof.
  intros db eng fs id H.
  set (p := fun d => is_true (eq_number (documents.case_id d) id)).
  destruct (order_by_desc_spec documents.uploaded_at (filter p (DOCUMENTS db)))
    as [S P].
  exists (ORDER_BY_DESC documents.uploaded_at (filter p (DOCUMENTS db))),
         (filter (fun d => negb (p d)) (DOCUMENTS db)).
  split; [| split; [| split; [| split]]].
  - next_call fs H; [| next_call fs H ]; run_more; reflexivity.
  - rewrite <- P. apply filter_split.
  - apply Forall_forall. intros d I.
    apply (Permutation_in d (Permutation_sym P)) in I.
    apply filter_In in I. now apply eq_number_iff.
  - apply Forall_forall. intros d I.
    apply filter_In in I. now apply not_eq_number_iff.
  - exact S.
Qed.

Lemma get_documents_of_case_witness :
  healthy []
  /\ exists rows rest,
       fst (Main.get_documents 1 (request sample_db sample_engine []))
       = Return (map Main.document rows)
       /\ Permutation (rows ++ rest) (DOCUMENTS sample_db)
       /\ Forall (fun d => documents.case_id d = Some 1) rows
       /\ Forall (fun d => documents.case_id d <> Some 1) rest
       /\ Sorted (listed_before documents.uploaded_at) rows.
Proof.
  split; [exact healthy_nil |].
  exact (get_documents_of_case sample_db sample_engine [] 1 healthy_nil).
Defined.

(** X3. With a healthy driver, [get_hearings(case_id)] returns exactly the
    hearings of that case, the latest hearing date first. *)
Theorem get_hearings_of_case :
  forall db eng fs id,
    healthy fs ->
    exists rows rest,
      fst (Main.get_hearings id (request db eng fs))
      = Return (map Main.hearing_dict rows)
      /\ Permutation (rows ++ rest) (HEARINGS db)
      /\ Forall (fun h => hearings.case_id h = Some id) rows
      /\ Forall (fun h => hearings.case_id h <> Some id) rest
      /\ Sorted (listed_before hearings.hearing_date) rows.
Proof.
  intros db eng fs id H.
  set (p := fun h => is_true (eq_number (hearings.case_id h) id)).
  destruct (order_by_desc_spec hearings.hearing_date (filter p (HEARINGS db)))
    as [S P].
  exists (ORDER_BY_DESC hearings.hearing_date (filter p (HEARINGS db))),
         (filter (fun h => negb (p h)) (HEARINGS db)).
  split; [| split; [| split; [| split]]].
  - next_call fs H; [| next_call fs H ]; run_more; reflexivity.
  - rewrite <- P. apply filter_split.
  - apply Forall_forall. intros h I.
    apply (Permutation_in h (Permutation_sym P)) in I.
    apply filter_In in I. now apply eq_number_iff.
  - apply Forall_forall. intros h I.
    apply filter_In in I. now apply not_eq_number_iff.
  - exact S.
Qed.

Lemma get_hearings_of_case_witness :
  healthy []
  /\ exists rows rest,
       fst (Main.get_hearings 1 (request sample_db sample_engine []))
       = Return (map Main.hearing_dict rows)
       /\ Permutation (rows ++ rest) (HEARINGS sample_db)
       /\ Forall (fun h => hearings.case_id h = Some 1) rows
       /\ Forall (fun h => hearings.case_id h <> Some 1) rest
       /\ Sorted (listed_before hearings.hearing_date) rows.
Proof.
  split; [exact healthy_nil |].
  exact (get_hearings_of_case sample_db sample_engine [] 1 healthy_nil).
Defined.

(** ** Verifying documents *)

Lemma filter_none {A} (p : A -> bool) l :
  existsb p l = false -> filter p l = [].
Proof.
  induction l as [| x l IH]; cbn [existsb filter]; auto.
  destruct (p x); cbn [orb]; [discriminate | exact IH].
Qed.

Lemma filter_some {A} (p : A -> bool) l :
  existsb p l = true ->
  exists x rest, filter p l = x :: rest /\ In x l /\ p x = true.
Proof.
  induction l as [| y l IH]; cbn [existsb filter]; [discriminate |].
  destruct (p y) eqn:E; cbn [orb].
  - intros _. exists y, (filter p l). repeat split; auto. now left.
  - intros H. destruct (IH H) as [x [rest [F [I Px]]]].
    exists x, rest. repeat split; auto. now right.
Qed.

Lemma hash_exists_false_of_count t h :
  count_hash h t = 0%nat -> hash_exists t h = false.
Proof.
  unfold hash_exists, count_hash.
  induction (DOCUMENTS t) as [| d l IH]; cbn [map count_occ existsb]; auto.
  destruct (status_eq_dec (documents.document_hash d) (Some h)) as [E | N].
  - discriminate.
  - intros C. rewrite (IH C), Bool.orb_false_r.
    destruct (is_true _) eqn:T; auto.
    apply hash_matches_iff in T. contradiction.
Qed.

(** X4. With a healthy driver, verifying a hash that no document carries
    returns [{"verified": False, "message": "Document not found in
    blockchain"}] and raises nothing; verifying a hash that some document
    carries returns [{"verified": True, ...}] with the name, the uploader
    and the upload time of a document with that hash. *)
Theorem verify_document_lookup :
  forall db eng fs h,
    healthy fs ->
    (count_hash h db = 0%nat ->
       fst (Main.verify_document (DocumentVerify.mk h) (request db eng fs))
       = Return (Verification.NotVerified "Document not found in blockchain"))
    /\ ((0 < count_hash h db)%nat ->
        exists d,
          In d (DOCUMENTS db) /\ documents.document_hash d = Some h
          /\ fst (Main.verify_document (DocumentVerify.mk h)
                    (request db eng fs))
             = Return (Verification.Verified
                         (documents.document_name d) (documents.uploaded_by d)
                         (option_map Py.isoformat (documents.uploaded_at d)))).
Proof.
  intros db eng fs h H. split.
  - intros C. apply hash_exists_false_of_count in C.
    apply filter_none in C.
    next_call fs H; [| next_call fs H ]; run_more;
      cbn [DocumentVerify.document_hash]; now rewrite C.
  - intros C. apply hash_exists_count in C.
    apply filter_some in C. destruct C as [d [rest [F [I P]]]].
    exists d. split; [exact I |]. split; [now apply hash_matches_iff |].
    next_call fs H; [| next_call fs H ]; run_more;
      cbn [DocumentVerify.document_hash]; now rewrite F.
Qed.

Lemma verify_document_lookup_witness :
  healthy []
  /\ count_hash "00" sample_db = 0%nat
  /\ fst (Main.verify_document (DocumentVerify.mk "00")
            (request sample_db sample_engine []))
     = Return (Verification.NotVerified "Document not found in blockchain")
  /\ (0 < count_hash
            "ba7816bf8f01cfea414140de5dae2223b00361a396177a9cb410ff61f20015ad"
            sample_db)%nat
  /\ exists d,
       In d (DOCUMENTS sample_db)
       /\ fst (Main.verify_document
                 (DocumentVerify.mk
                    "ba7816bf8f01cfea414140de5dae2223b00361a396177a9cb410ff61f20015ad")
                 (request sample_db sample_engine []))
          = Return (Verification.Verified
                      (documents.document_name d) (documents.uploaded_by d)
                      (option_map Py.isoformat (documents.uploaded_at d))).
Proof.
  split; [exact healthy_nil |]. split; [reflexivity |].
  destruct (verify_document_lookup sample_db sample_engine [] "00" healthy_nil)
    as [N _].
  split; [exact (N eq_refl) |].
  assert (0 < count_hash
            "ba7816bf8f01cfea414140de5dae2223b00361a396177a9cb410ff61f20015ad"
            sample_db)%nat as C by (vm_compute; constructor).
  split; [exact C |].
  destruct (verify_document_lookup sample_db sample_engine []
              "ba7816bf8f01cfea414140de5dae2223b00361a396177a9cb410ff61f20015ad"
              healthy_nil) as [_ F].
  destruct (F C) as [d [I [_ R]]]. exists d. split; assumption.
Defined.

(** The row an upload that returned has appended. *)
Lemma upload_returns_row db eng fs id name type uploader content r w :
  Main.upload_document id name type uploader content (request db eng fs)
  = (Return r, w) ->
  Uploaded.document_hash r = Hashlib.hexdigest content
  /\ hash_exists db (Hashlib.hexdigest content) = false
  /\ case_exists db id = true
  /\ existsb (fun d => documents.doc_id d =? documents_seq eng) (DOCUMENTS db)
     = false
  /\ committed w
     = mk_tables (CASES db)
         (DOCUMENTS db
          ++ [documents.mk (documents_seq eng) (Some id) (Some name)
                (Some (Hashlib.hexdigest content)) (Some type) (Some uploader)
                None (Some (current_timestamp eng))])
         (HEARINGS db).
Proof.
  any_call fs; [| | any_call fs; [| | any_call fs] ]; run;
    try discriminate;
    destruct (existsb _ (DOCUMENTS db)); cbn [orb]; try discriminate;
    destruct (hash_exists db (Hashlib.hexdigest content));
    try discriminate;
    destruct (case_exists db id); cbn [negb]; try discriminate;
    intros R; inversion R; subst; clear R; repeat split; reflexivity.
Qed.

(** X5. Upload, then verify: after an upload that returned, verifying the
    hash it returned (healthy driver) answers [verified: True] with the name
    and the uploader given at the upload and the time of the upload. *)
Theorem upload_then_verify :
  forall db eng fs1 fs2 id name type uploader content r w1,
    Main.upload_document id name type uploader content (request db eng fs1)
    = (Return r, w1) ->
    healthy fs2 ->
    fst (Main.verify_document (DocumentVerify.mk (Uploaded.document_hash r))
           (request (committed w1) (engine w1) fs2))
    = Return (Verification.Verified (Some name) (Some uploader)
                (Some (Py.isoformat (current_timestamp eng)))).
Proof.
  intros db eng fs1 fs2 id name type uploader content r w1 U H.
  apply upload_returns_row in U. destruct U as [Hr [Hno [_ [_ Hw]]]].
  rewrite Hr, Hw. apply filter_none in Hno.
  next_call fs2 H; [| next_call fs2 H ]; run_more;
    cbn [DocumentVerify.document_hash DOCUMENTS];
    rewrite filter_app, Hno; cbn [filter app documents.document_hash
                                   eq_varchar option_map is_true];
    rewrite String.eqb_refl; reflexivity.
Qed.

Lemma upload_then_verify_witness :
  exists r w1,
    Main.upload_document 2 "invoice.pdf" "pdf" "Ann Lee"
      (list_byte_of_string "invoice 17")
      (request sample_db sample_engine []) = (Return r, w1)
    /\ healthy []
    /\ fst (Main.verify_document (DocumentVerify.mk (Uploaded.document_hash r))
              (request (committed w1) (engine w1) []))
       = Return (Verification.Verified (Some "invoice.pdf") (Some "Ann Lee")
                   (Some (Py.isoformat (current_timestamp sample_engine)))).
Proof.
  eexists. eexists. split; [vm_compute; reflexivity |].
  split; [exact healthy_nil |].
  apply (upload_then_verify sample_db sample_engine [] [] 2 "invoice.pdf"
           "pdf" "Ann Lee" (list_byte_of_string "invoice 17"));
    [vm_compute; reflexivity | exact healthy_nil].
Defined.

(** ** What the handlers never do *)

(** Closes a goal [untouched db eng w] on a world that has been run. *)
Ltac solve_untouched :=
  unfold untouched; cbn [committed engine trace];
  split; [reflexivity | split; [reflexivity |]];
  cbn [In]; intros K;
  repeat match goal with
         | K : _ \/ _ |- _ => destruct K as [K | K]
         end; try discriminate K; try contradiction.

(** X6. The reading handlers never change the store, whatever the driver or
    the provider does: after [get_all_cases], [get_case] (both entry
    points), [search_cases], [get_case_stats], [get_documents],
    [verify_document], [get_hearings], [chat_with_ai] and [health_check] the
    committed tables and the identity sequences are what they were, and
    [commit] was never called. *)
Theorem reading_handlers_leave_store :
  forall db eng fs id query h groq now chat,
    untouched db eng (snd (Main.get_all_cases (request db eng fs)))
    /\ untouched db eng (snd (App.get_all_cases (request db eng fs)))
    /\ untouched db eng (snd (Main.get_case id (request db eng fs)))
    /\ untouched db eng (snd (App.get_case id (request db eng fs)))
    /\ untouched db eng (snd (Main.search_cases query (request db eng fs)))
    /\ untouched db eng (snd (Main.get_case_stats (request db eng fs)))
    /\ untouched db eng (snd (Main.get_documents id (request db eng fs)))
    /\ untouched db eng
         (snd (Main.verify_document (DocumentVerify.mk h) (request db eng fs)))
    /\ untouched db eng (snd (Main.get_hearings id (request db eng fs)))
    /\ untouched db eng
         (snd (Main.chat_with_ai groq now chat (request db eng fs)))
    /\ untouched db eng (snd (Main.health_check now (request db eng fs)))
    /\ untouched db eng (snd (App.health_check now (request db eng fs))).
Proof.
  intros db eng fs id query h groq now chat.
  assert (untouched db eng (snd (Main.get_all_cases (request db eng fs))))
    as A1.
  { any_call fs; [| | any_call fs ]; run_more; solve_untouched. }
  assert (untouched db eng (snd (Main.get_case id (request db eng fs)))) as A2.
  { any_call fs; [| | any_call fs ]; run_more; split_tests; solve_untouched. }
  assert (untouched db eng (snd (Main.search_cases query (request db eng fs))))
    as A3.
  { any_call fs; [| | any_call fs ]; run_more; solve_untouched. }
  assert (untouched db eng (snd (Main.get_case_stats (request db eng fs))))
    as A4.
  { any_call fs; [| | any_call fs ]; run_more; solve_untouched. }
  assert (untouched db eng (snd (Main.get_documents id (request db eng fs))))
    as A5.
  { any_call fs; [| | any_call fs ]; run_more; solve_untouched. }
  assert (untouched db eng
            (snd (Main.verify_document (DocumentVerify.mk h)
                    (request db eng fs)))) as A6.
  { any_call fs; [| | any_call fs ]; run_more; split_tests; solve_untouched. }
  assert (untouched db eng (snd (Main.get_hearings id (request db eng fs))))
    as A7.
  { any_call fs; [| | any_call fs ]; run_more; solve_untouched. }
  assert (untouched db eng
            (snd (Main.chat_with_ai groq now chat (request db eng fs)))) as A8.
  { destruct chat as [message [cid |] context];
      [destruct (Z.eqb_spec cid 0) as [E | E] |];
      (any_call fs; [| | any_call fs ]);
      run_more; cbn [ChatRequest.case_id];
      try (apply Z.eqb_neq in E; rewrite E);
      try (subst cid; cbn [Z.eqb]);
      split_tests; solve_untouched. }
  assert (untouched db eng (snd (Main.health_check now (request db eng fs))))
    as A9.
  { any_call fs; run_more; solve_untouched. }
  exact (conj A1 (conj A1 (conj A2 (conj A2 (conj A3 (conj A4 (conj A5
          (conj A6 (conj A7 (conj A8 (conj A9 A9))))))))))).
Qed.

(** Every way the next two to five driver calls can go. *)
Ltac calls2 fs := any_call fs; [| | any_call fs ].
Ltac calls3 fs := any_call fs; [| | calls2 fs ].
Ltac calls4 fs := any_call fs; [| | calls3 fs ].
Ltac calls5 fs := any_call fs; [| | calls4 fs ].

(** Gives the driver calls between [Connect] and the closing and closes
    what is said of them. *)
Ltac released_after calls :=
  refine (ex_intro _ calls _);
  (split; [reflexivity |]);
  (split; [not_among |]); (split; [not_among |]); not_among.

Ltac solve_released :=
  cbv beta iota delta [released]; cbn [trace];
  first [ reflexivity
        | released_after uconstr:([])
        | released_after uconstr:([_])
        | released_after uconstr:([_; _])
        | released_after uconstr:([_; _; _])
        | released_after uconstr:([_; _; _; _])
        | released_after uconstr:([_; _; _; _; _])
        | released_after uconstr:([_; _; _; _; _; _]) ].

(** X7. Whatever the driver does, at its calls and at the rollback, and
    whether a handler returns or raises, a connection it obtained is closed:
    when the connection attempt fails the handler makes no other driver call;
    when it goes through, the handler's last two driver calls are
    [cursor.close()] and [conn.close()], and it connects and closes nothing
    else in between.  [chat_with_ai] connects only for a case identifier
    that is given and not zero, and makes no driver call otherwise. *)
Theorem handlers_release_connection :
  forall db eng fs rb id query h groq now chat to_date hid
         (c : CaseCreate.t) (u : CaseUpdate.t) (s : StatusUpdate.t)
         (hr : HearingCreate.t) name type uploader content,
    let w0 := request_with db eng fs rb in
    released fs (trace (snd (Main.create_case c w0)))
    /\ released fs (trace (snd (Main.get_all_cases w0)))
    /\ released fs (trace (snd (Main.get_case id w0)))
    /\ released fs (trace (snd (Main.update_case id u w0)))
    /\ released fs (trace (snd (Main.update_case_status id s w0)))
    /\ released fs (trace (snd (Main.delete_case id w0)))
    /\ released fs (trace (snd (App.delete_case id w0)))
    /\ released fs (trace (snd (Main.search_cases query w0)))
    /\ released fs (trace (snd (Main.get_case_stats w0)))
    /\ released fs
         (trace (snd (Main.upload_document id name type uploader content w0)))
    /\ released fs (trace (snd (Main.get_documents id w0)))
    /\ released fs
         (trace (snd (Main.verify_document (DocumentVerify.mk h) w0)))
    /\ released fs (trace (snd (Main.create_hearing to_date hid hr w0)))
    /\ released fs (trace (snd (Main.get_hearings id w0)))
    /\ match ChatRequest.case_id chat with
       | Some cid =>
           if cid =? 0
           then trace (snd (Main.chat_with_ai groq now chat w0)) = []
           else released fs (trace (snd (Main.chat_with_ai groq now chat w0)))
       | None => trace (snd (Main.chat_with_ai groq now chat w0)) = []
       end.
Proof.
  intros db eng fs rb id query h groq now chat to_date hid c u s hr
         name type uploader content w0. subst w0.
  repeat apply conj.
  - destruct rb; calls3 fs; run_more; split_tests; solve_released.
  - calls2 fs; run_more; split_tests; solve_released.
  - calls2 fs; run_more; split_tests; solve_released.
  - destruct rb; calls3 fs; run_more; split_tests; solve_released.
  - destruct rb; calls3 fs; run_more; split_tests; solve_released.
  - destruct rb; calls5 fs; run_more; cbn [CASES DOCUMENTS HEARINGS];
      split_tests; solve_released.
  - destruct rb; calls4 fs; run_more; cbn [CASES DOCUMENTS HEARINGS];
      split_tests; solve_released.
  - calls2 fs; run_more; split_tests; solve_released.
  - calls2 fs; run_more; split_tests; solve_released.
  - destruct rb; calls3 fs; run_more; split_tests; solve_released.
  - calls2 fs; run_more; split_tests; solve_released.
  - calls2 fs; run_more; split_tests; solve_released.
  - destruct rb; calls3 fs; run_more; split_tests; solve_released.
  - calls2 fs; run_more; split_tests; solve_released.
  - destruct chat as [message [cid |] context]; cbn [ChatRequest.case_id];
      [destruct (Z.eqb_spec cid 0) as [E | E] |];
      calls2 fs; run_more; cbn [ChatRequest.case_id];
      try (apply Z.eqb_neq in E; rewrite E);
      try (subst cid; cbn [Z.eqb]);
      split_tests; solve_released.
Qed.

(** ** Writing handlers *)


Lemma status_rows_spec s id l :
  Forall2 (status_update_of s id) l
    (map (fun r => if cases.case_id r =? id then Sql.set_status s r else r) l).
Proof.
  induction l as [| r l IH]; simpl; constructor; auto.
  unfold status_update_of.
  destruct (Z.eqb_spec (cases.case_id r) id) as [E | E]; split; intros E';
    try contradiction; auto.
  cbn. repeat split; reflexivity.
Qed.

(** X9. A status update that returns (either entry point) sets the status
    of the rows of the case to the text given, whatever text it is, and
    changes no other column, no other case, no document and no hearing. *)
Theorem update_case_status_frame :
  forall db eng fs id (s : StatusUpdate.t) a w,
    Main.update_case_status id s (request db eng fs) = (Return a, w)
    \/ App.update_case_status id s (request db eng fs) = (Return a, w) ->
    Forall2 (status_update_of (StatusUpdate.status s) id)
            (CASES db) (CASES (committed w))
    /\ DOCUMENTS (committed w) = DOCUMENTS db
    /\ HEARINGS (committed w) = HEARINGS db.
Proof.
  intros db eng fs id s a w [R | R]; revert R;
    (calls3 fs; run_more; try discriminate;
     intros E; inversion E; subst; clear E; cbn;
     (split; [apply status_rows_spec | split; reflexivity])).
Qed.

Lemma update_case_status_frame_witness :
  exists a w,
    Main.update_case_status 1 (StatusUpdate.mk "On hold")
      (request sample_db sample_engine []) = (Return a, w)
    /\ Forall2 (status_update_of "On hold" 1)
         (CASES sample_db) (CASES (committed w))
    /\ DOCUMENTS (committed w) = DOCUMENTS sample_db
    /\ HEARINGS (committed w) = HEARINGS sample_db.
Proof.
  eexists. eexists. split; [reflexivity |].
  exact (update_case_status_frame sample_db sample_engine [] 1
           (StatusUpdate.mk "On hold") _ _ (or_introl eq_refl)).
Defined.

(** ** One operation after another *)

(** The row a [create_case] that returned has appended. *)
Lemma create_returns_row db eng fs (c : CaseCreate.t) r w :
  Main.create_case c (request db eng fs) = (Return r, w) ->
  Created.case_id r = cases_seq eng
  /\ case_exists db (cases_seq eng) = false
  /\ committed w
     = mk_tables
         (CASES db
          ++ [cases.mk (cases_seq eng)
                (Some (CaseCreate.case_title c))
                (Some (CaseCreate.client_name c))
                (Some (CaseCreate.client_email c))
                (Some (CaseCreate.client_address c))
                (Some (CaseCreate.lawyer_name c))
                (Some (CaseCreate.lawyer_email c))
                (Some (CaseCreate.case_type c))
                (Some (CaseCreate.description c))
                (Some (CaseCreate.client_wallet c))
                (Some (CaseCreate.lawyer_wallet c))
                None (Some "Active") (Some (current_timestamp eng))])
         (DOCUMENTS db) (HEARINGS db).
Proof.
  calls3 fs; run; try discriminate;
    destruct (case_exists db (cases_seq eng)); try discriminate;
    intros E; inversion E; subst; clear E; repeat split; reflexivity.
Qed.

(** X10. Create, then fetch: after a [create_case] that returned, fetching
    the identifier it returned (healthy driver, either entry point) gives
    the ten fields of the request, status ['Active'], no transaction
    reference, and the creation time in ISO form. *)
Theorem create_then_get :
  forall db eng fs1 fs2 (c : CaseCreate.t) r w1,
    Main.create_case c (request db eng fs1) = (Return r, w1)
    \/ App.create_case c (request db eng fs1) = (Return r, w1) ->
    healthy fs2 ->
    fst (Main.get_case (Created.case_id r)
           (request (committed w1) (engine w1) fs2))
    = Return (CaseData.mk (Created.case_id r)
                (Some (CaseCreate.case_title c))
                (Some (CaseCreate.client_name c))
                (Some (CaseCreate.client_email c))
                (Some (CaseCreate.client_address c))
                (Some (CaseCreate.lawyer_name c))
                (Some (CaseCreate.lawyer_email c))
                (Some (CaseCreate.case_type c))
                (Some (CaseCreate.description c))
                (Some (CaseCreate.client_wallet c))
                (Some (CaseCreate.lawyer_wallet c))
                None (Some "Active")
                (Some (Py.isoformat (current_timestamp eng))))
    /\ fst (App.get_case (Created.case_id r)
              (request (committed w1) (engine w1) fs2))
       = fst (Main.get_case (Created.case_id r)
                (request (committed w1) (engine w1) fs2)).
Proof.
  intros db eng fs1 fs2 c r w1 U H.
  split; [| reflexivity].
  assert (Main.create_case c (request db eng fs1) = (Return r, w1)) as U'
    by (destruct U as [U | U]; exact U).
  apply create_returns_row in U'. destruct U' as [Hr [Hno Hw]].
  rewrite Hr, Hw. apply select_case_none in Hno.
  next_call fs2 H; [| next_call fs2 H ]; run; cbn [CASES];
    rewrite filter_app, Hno; cbn [filter app cases.case_id];
    rewrite Z.eqb_refl; reflexivity.
Qed.

Lemma create_then_get_witness :
  exists r w1,
    Main.create_case sample_create (request sample_db sample_engine [])
    = (Return r, w1)
    /\ healthy []
    /\ exists d,
         fst (Main.get_case (Created.case_id r)
                (request (committed w1) (engine w1) [])) = Return d
         /\ CaseData.status d = Some "Active"
         /\ CaseData.case_title d = Some "Lease".
Proof.
  eexists. eexists. split; [reflexivity |]. split; [exact healthy_nil |].
  eexists. split.
  - exact (proj1 (create_then_get sample_db sample_engine [] [] sample_create
                    _ _ (or_introl eq_refl) healthy_nil)).
  - split; reflexivity.
Defined.

Lemma get_case_missing t eng fs id :
  healthy fs ->
  case_exists t id = false ->
  fst (Main.get_case id (request t eng fs))
  = Raise (Py.HTTPException 404 "Case not found").
Proof.
  intros H Hid. apply select_case_none in Hid.
  next_call fs H; [| next_call fs H ]; run; now rewrite Hid.
Qed.

Lemma status_update_returns db eng fs id (s : StatusUpdate.t) a w :
  Main.update_case_status id s (request db eng fs) = (Return a, w) ->
  committed w
  = mk_tables
      (map (fun r => if cases.case_id r =? id
                     then Sql.set_status (StatusUpdate.status s) r else r)
           (CASES db))
      (DOCUMENTS db) (HEARINGS db).
Proof.
  calls3 fs; run; try discriminate;
    intros E; inversion E; subst; clear E; reflexivity.
Qed.

Lemma select_after_status s id l :
  filter (fun r => cases.case_id r =? id)
         (map (fun r => if cases.case_id r =? id then Sql.set_status s r else r) l)
  = map (Sql.set_status s) (filter (fun r => cases.case_id r =? id) l).
Proof.
  induction l as [| r l IH]; cbn [map filter]; auto.
  destruct (cases.case_id r =? id) eqn:E.
  - cbn [Sql.set_status cases.case_id]. rewrite E. cbn [map]. now rewrite IH.
  - rewrite E. exact IH.
Qed.

(** X11. Status update, then fetch: after a status update of a stored case
    that returned, fetching the case (healthy driver) gives the new status
    and, for every other column, what a row of that case held before. *)
Theorem status_update_then_get :
  forall db eng fs1 fs2 id (s : StatusUpdate.t) a w1,
    Main.update_case_status id s (request db eng fs1) = (Return a, w1) ->
    healthy fs2 ->
    case_exists db id = true ->
    exists row,
      In row (CASES db) /\ cases.case_id row = id
      /\ fst (Main.get_case id (request (committed w1) (engine w1) fs2))
         = Return (CaseData.mk id
                     (cases.case_title row) (cases.client_name row)
                     (cases.client_email row) (cases.client_address row)
                     (cases.lawyer_name row) (cases.lawyer_email row)
                     (cases.case_type row) (cases.description row)
                     (cases.client_wallet row) (cases.lawyer_wallet row)
                     (cases.blockchain_tx row)
                     (Some (StatusUpdate.status s))
                     (option_map Py.isoformat (cases.created_at row))).
Proof.
  intros db eng fs1 fs2 id s a w1 U H Hid.
  apply status_update_returns in U.
  apply select_case_some in Hid. destruct Hid as [row [rest [F [I E]]]].
  exists row. split; [exact I |]. split; [exact E |].
  rewrite U.
  next_call fs2 H; [| next_call fs2 H ]; run; cbn [CASES];
    rewrite select_after_status, F; cbn [map Sql.set_status];
    cbn; now rewrite E.
Qed.

Lemma status_update_then_get_witness :
  exists a w1,
    Main.update_case_status 2 (StatusUpdate.mk "Archived")
      (request sample_db sample_engine []) = (Return a, w1)
    /\ healthy []
    /\ case_exists sample_db 2 = true
    /\ exists d,
         fst (Main.get_case 2 (request (committed w1) (engine w1) []))
         = Return d
         /\ CaseData.status d = Some "Archived".
Proof.
  eexists. eexists. split; [reflexivity |]. split; [exact healthy_nil |].
  split; [reflexivity |].
  destruct (status_update_then_get sample_db sample_engine [] [] 2
              (StatusUpdate.mk "Archived") _ _ eq_refl healthy_nil eq_refl)
    as [row [_ [_ R]]].
  eexists. split; [exact R | reflexivity].
Defined.

(** X12. Delete, then fetch: after a delete of a case that returned (either
    entry point), fetching that case (healthy driver) raises 404. *)
Theorem delete_then_get_not_found :
  forall db eng fs1 fs2 id a w1,
    Main.delete_case id (request db eng fs1) = (Return a, w1)
    \/ App.delete_case id (request db eng fs1) = (Return a, w1) ->
    healthy fs2 ->
    fst (Main.get_case id (request (committed w1) (engine w1) fs2))
    = Raise (Py.HTTPException 404 "Case not found")
    /\ fst (App.get_case id (request (committed w1) (engine w1) fs2))
       = Raise (Py.HTTPException 404 "Case not found").
Proof.
  intros db eng fs1 fs2 id a w1 U H.
  assert (case_exists (committed w1) id = false) as Hid.
  { apply case_exists_false_iff. intros r I.
    destruct U as [U | U].
    - apply main_delete_returns in U. destruct U as [_ [_ [_ C]]].
      now apply C in I.
    - apply app_delete_returns in U. destruct U as [_ [_ [_ C]]].
      now apply C in I. }
  split; apply (get_case_missing _ _ _ _ H Hid).
Qed.

Lemma delete_then_get_not_found_witness :
  exists a w1,
    Main.delete_case 1 (request sample_db sample_engine []) = (Return a, w1)
    /\ healthy []
    /\ fst (Main.get_case 1 (request (committed w1) (engine w1) []))
       = Raise (Py.HTTPException 404 "Case not found").
Proof.
  eexists. eexists. split; [vm_compute; reflexivity |].
  split; [exact healthy_nil |].
  refine (proj1 (delete_then_get_not_found sample_db sample_engine [] [] 1
                   _ _ _ healthy_nil)).
  left. vm_compute. reflexivity.
Defined.

Lemma app_delete_refused db eng fs id h :
  healthy fs ->
  case_exists db id = true ->
  In h (HEARINGS db) ->
  hearings.case_id h = Some id ->
  fst (App.delete_case id (request db eng fs))
  = Raise (Py.HTTPException 500 ORA_02292)
  /\ committed (snd (App.delete_case id (request db eng fs))) = db.
Proof.
  intros H Hid I E.
  assert (forall ds, has_children (mk_tables (CASES db) ds (HEARINGS db)) id
                     = true) as K.
  { intros ds. unfold has_children. cbn [DOCUMENTS HEARINGS].
    apply Bool.orb_true_iff. right. apply existsb_exists.
    exists h. split; [exact I |]. now apply eq_number_iff. }
  unfold case_exists in Hid.
  next_call fs H; [| next_call fs H; [| next_call fs H ]];
    run; cbn [CASES DOCUMENTS HEARINGS]; unfold case_exists;
    cbn [CASES]; rewrite Hid, K; split; reflexivity.
Qed.

(** X13. With a healthy driver, the delete of [app.py] of a stored case to
    which a hearing refers is refused: it raises 500 with the engine's
    child-record error and deletes nothing, not even the documents of the
    case. *)
Theorem app_delete_refused_by_hearing :
  forall db eng fs id h,
    healthy fs ->
    case_exists db id = true ->
    In h (HEARINGS db) ->
    hearings.case_id h = Some id ->
    fst (App.delete_case id (request db eng fs))
    = Raise (Py.HTTPException 500 ORA_02292)
    /\ committed (snd (App.delete_case id (request db eng fs))) = db.
Proof.
  intros db eng fs id h H Hid I E.
  assert (forall ds, has_children (mk_tables (CASES db) ds (HEARINGS db)) id
                     = true) as K.
  { intros ds. unfold has_children. cbn [DOCUMENTS HEARINGS].
    apply Bool.orb_true_iff. right. apply existsb_exists.
    exists h. split; [exact I |]. now apply eq_number_iff. }
  unfold case_exists in Hid.
  next_call fs H; [| next_call fs H; [| next_call fs H ]];
    run; cbn [CASES DOCUMENTS HEARINGS]; unfold case_exists;
    cbn [CASES]; rewrite Hid, K; split; reflexivity.
Qed.

Lemma app_delete_refused_by_hearing_witness :
  healthy []
  /\ case_exists sample_db 1 = true
  /\ In sample_hearing (HEARINGS sample_db)
  /\ hearings.case_id sample_hearing = Some 1
  /\ fst (App.delete_case 1 (request sample_db sample_engine []))
     = Raise (Py.HTTPException 500 ORA_02292)
  /\ committed (snd (App.delete_case 1 (request sample_db sample_engine [])))
     = sample_db.
Proof.
  split; [exact healthy_nil |]. split; [reflexivity |].
  split; [now left |]. split; [reflexivity |].
  exact (app_delete_refused_by_hearing sample_db sample_engine [] 1
           sample_hearing healthy_nil eq_refl (or_introl eq_refl) eq_refl).
Defined.



Lemma stats_value db eng fs :
  healthy fs ->
  fst (Main.get_case_stats (request db eng fs))
  = Return (Stats.mk (Z.of_nat (List.length (CASES db)))
              (count_status "Active" (CASES db))
              (count_status "Closed" (CASES db))
              (count_status "Pending" (CASES db))).
Proof.
  intros H. next_call fs H; [| next_call fs H ]; run;
    now rewrite or_0_COUNT, !or_0_SUM.
Qed.

Lemma count_status_snoc s l r :
  count_status s (l ++ [r])
  = count_status s l
    + (if status_eq_dec (cases.status r) (Some s) then 1 else 0).
Proof.
  unfold count_status. rewrite map_app, count_occ_app. cbn [map count_occ].
  destruct (status_eq_dec (cases.status r) (Some s)); lia.
Qed.

(** X15. Create, then count: after a [create_case] that returned, the
    statistics (healthy driver) show one more case in [total] and one more in
    [active], and [closed] and [pending] as before. *)
Theorem create_then_stats :
  forall db eng fs1 fs2 (c : CaseCreate.t) r w1,
    Main.create_case c (request db eng fs1) = (Return r, w1) ->
    healthy fs2 ->
    fst (Main.get_case_stats (request (committed w1) (engine w1) fs2))
    = Return (Stats.mk (Z.of_nat (List.length (CASES db)) + 1)
                (count_status "Active" (CASES db) + 1)
                (count_status "Closed" (CASES db))
                (count_status "Pending" (CASES db))).
Proof.
  intros db eng fs1 fs2 c r w1 U H.
  apply create_returns_row in U. destruct U as [_ [_ Hw]].
  rewrite (stats_value _ _ _ H), Hw. cbn [CASES].
  rewrite !count_status_snoc, length_app. cbn [cases.status List.length].
  f_equal. f_equal; cbn; lia.
Qed.

Lemma create_then_stats_witness :
  exists r w1,
    Main.create_case sample_create (request sample_db sample_engine [])
    = (Return r, w1)
    /\ healthy []
    /\ fst (Main.get_case_stats (request (committed w1) (engine w1) []))
       = Return (Stats.mk 4 2 1 1).
Proof.
  eexists. eexists. split; [vm_compute; reflexivity |].
  split; [exact healthy_nil |].
  refine (eq_trans
            (create_then_stats sample_db sample_engine [] [] sample_create
               _ _ _ healthy_nil) _).
  - vm_compute. reflexivity.
  - reflexivity.
Defined.

(** ** The integrity of the tables *)



Lemma in_non_null {A} (l : list (option A)) x :
  In x (non_null l) <-> In (Some x) l.
Proof.
  unfold non_null. rewrite in_flat_map. split.
  - intros [[y |] [I K]]; [| destruct K]. destruct K as [-> | []]. exact I.
  - intros I. exists (Some x). split; [exact I | now left].
Qed.













(** Runs the handler combinators of the goal, leaving list appends alone. *)
Ltac run_store :=
  cbv beta iota zeta delta
    [Main.create_case Main.update_case Main.update_case_status
     Main.delete_case Main.upload_document App.delete_case
     Main.create_hearing App.create_case App.update_case_status
     try_finally try_except bind ret raise get_db_connection oracledb_connect
     assign_conn assign_cursor execute commit rollback conn_close cursor_close
     if_conn if_cursor release rollback_and_500 next_fault log request
     request_with rollback_fault
     committed engine faults conn cursor
     Sql.on_tables Sql.insert_case Sql.update_case
     Sql.update_status Sql.delete_hearings Sql.delete_documents
     Sql.delete_cases Sql.insert_document Sql.insert_hearing
     fst snd].



Lemma integrity_sample_db : integrity sample_db.
Proof.
  unfold integrity.
  split; [repeat constructor; cbn; intuition discriminate |].
  split; [repeat constructor; cbn; intuition discriminate |].
  split; [repeat constructor; cbn; intuition discriminate |].
  split; [repeat constructor; cbn; intuition discriminate |].
  split.
  - intros d id [<- | []] E. inversion E; subst. reflexivity.
  - intros h id [<- | []] E. inversion E; subst. reflexivity.
Defined.


(** ** Hearings *)

(** The row a [create_hearing] that returned has appended. *)
Lemma hearing_returns_row db eng fs to_date hid (hr : HearingCreate.t) a w :
  Main.create_hearing to_date hid hr (request db eng fs) = (Return a, w) ->
  case_exists db (HearingCreate.case_id hr) = true
  /\ exists h,
       hearings.case_id h = Some (HearingCreate.case_id hr)
       /\ hearings.hearing_id h = hid
       /\ hearings.hearing_time h = Some (HearingCreate.hearing_time hr)
       /\ hearings.court_name h = Some (HearingCreate.court_name hr)
       /\ to_date (HearingCreate.hearing_date hr)
          = match hearings.hearing_date h with
            | Some d => inr d
            | None => inl EmptyString
            end
       /\ committed w
          = mk_tables (CASES db) (DOCUMENTS db) (HEARINGS db ++ [h]).
Proof.
  calls3 fs; run_store; split_tests; try discriminate;
    intros R; inversion R; subst; clear R;
    match goal with
    | K : negb _ = false |- _ => apply Bool.negb_false_iff in K
    end;
    (split; [assumption |]);
    eexists; repeat split; cbn; try reflexivity; assumption.
Qed.

(** X17. After a [create_hearing] that returned, with a healthy driver: the
    hearing is listed by [get_hearings] of its case, the delete of [app.py]
    of that case is refused (500, child record found) and deletes nothing,
    and the delete of [main.py] of that case succeeds. *)
Theorem create_hearing_then :
  forall db eng fs1 fs2 to_date hid (hr : HearingCreate.t) a w1,
    Main.create_hearing to_date hid hr (request db eng fs1) = (Return a, w1) ->
    healthy fs2 ->
    (exists listed,
        fst (Main.get_hearings (HearingCreate.case_id hr)
               (request (committed w1) (engine w1) fs2)) = Return listed
        /\ exists x,
             In x listed /\ Hearing.hearing_id x = hid
             /\ Hearing.court_name x = Some (HearingCreate.court_name hr)
             /\ Hearing.hearing_time x = Some (HearingCreate.hearing_time hr))
    /\ fst (App.delete_case (HearingCreate.case_id hr)
              (request (committed w1) (engine w1) fs2))
       = Raise (Py.HTTPException 500 ORA_02292)
    /\ committed (snd (App.delete_case (HearingCreate.case_id hr)
                         (request (committed w1) (engine w1) fs2)))
       = committed w1
    /\ fst (Main.delete_case (HearingCreate.case_id hr)
              (request (committed w1) (engine w1) fs2))
       = Return success_of_delete.
Proof.
  intros db eng fs1 fs2 to_date hid hr a w1 U H.
  apply hearing_returns_row in U.
  destruct U as [Hid [h [Hc [Hh [Ht [Hn [_ Hw]]]]]]].
  assert (In h (HEARINGS (committed w1))) as I.
  { rewrite Hw. cbn [HEARINGS]. apply in_app_iff. right. now left. }
  assert (case_exists (committed w1) (HearingCreate.case_id hr) = true) as C.
  { rewrite Hw. exact Hid. }
  split; [| split; [| split]].
  - set (p := fun x => is_true (eq_number (hearings.case_id x)
                                  (HearingCreate.case_id hr))).
    destruct (order_by_desc_spec hearings.hearing_date
                (filter p (HEARINGS (committed w1)))) as [_ P].
    exists (map Main.hearing_dict
              (ORDER_BY_DESC hearings.hearing_date
                 (filter p (HEARINGS (committed w1))))).
    split.
    + next_call fs2 H; [| next_call fs2 H ]; run_more; reflexivity.
    + exists (Main.hearing_dict h). split.
      * apply in_map. apply (Permutation_in h P).
        apply filter_In. split; [exact I |]. now apply eq_number_iff.
      * cbn. auto.
  - exact (proj1 (app_delete_refused _ _ _ _ h H C I Hc)).
  - exact (proj2 (app_delete_refused _ _ _ _ h H C I Hc)).
  - exact (proj1 (main_delete_healthy _ _ _ _ H)).
Qed.

Lemma create_hearing_then_witness :
  exists a w1,
    Main.create_hearing sample_to_date 2 sample_hearing_request
      (request sample_db sample_engine []) = (Return a, w1)
    /\ healthy []
    /\ fst (App.delete_case 2 (request (committed w1) (engine w1) []))
       = Raise (Py.HTTPException 500 ORA_02292)
    /\ fst (Main.delete_case 2 (request (committed w1) (engine w1) []))
       = Return success_of_delete.
Proof.
  eexists. eexists. split; [vm_compute; reflexivity |].
  split; [exact healthy_nil |].
  refine ((fun T => conj (proj1 (proj2 T)) (proj2 (proj2 (proj2 T))))
            (create_hearing_then sample_db sample_engine [] [] sample_to_date
               2 sample_hearing_request _ _ _ healthy_nil)).
  vm_compute. reflexivity.
Defined.

(** ** The AI endpoints and the health check *)

Lemma chat_without_case db eng fs groq now message context cid :
  cid = None \/ cid = Some 0 ->
  Main.chat_with_ai groq now (ChatRequest.mk message cid context)
    (request db eng fs)
  = (chat_outcome groq now
       (Main.full_prompt EmptyString (ChatRequest.mk message cid context)),
     request db eng fs).
Proof.
  intros [-> | ->]; unfold chat_outcome; run_more;
    cbn [ChatRequest.case_id Z.eqb];
    destruct (groq _); reflexivity.
Qed.

(** X18. [chat_with_ai] and the case it is given.  With no case identifier,
    or with the identifier 0, it makes no driver call at all and sends the
    prompt without case context.  With the identifier of no stored case
    (healthy driver) it answers exactly as without identifier: no 404, no
    case context.  In each case a failure of the provider with text [msg]
    comes out as an [HTTPException] with status 500 whose detail is the
    [str] of the inner [HTTPException(500, "AI Error: " + msg)]. *)
Theorem chat_with_ai_without_case :
  forall db eng fs groq now message context id,
    healthy fs ->
    case_exists db id = false ->
    (forall cid, cid = None \/ cid = Some 0 ->
       trace (snd (Main.chat_with_ai groq now
                     (ChatRequest.mk message cid context) (request db eng fs)))
       = []
       /\ fst (Main.chat_with_ai groq now (ChatRequest.mk message cid context)
                 (request db eng fs))
          = chat_outcome groq now
              (Main.full_prompt EmptyString
                 (ChatRequest.mk message None context)))
    /\ fst (Main.chat_with_ai groq now (ChatRequest.mk message (Some id) context)
              (request db eng fs))
       = fst (Main.chat_with_ai groq now (ChatRequest.mk message None context)
                (request db eng fs)).
Proof.
  intros db eng fs groq now message context id H Hid. split.
  - intros cid Hc. rewrite (chat_without_case _ _ _ _ _ _ _ _ Hc).
    split; reflexivity.
  - rewrite (chat_without_case db eng fs groq now message context None)
      by now left.
    destruct (Z.eqb_spec id 0) as [-> | Hz].
    + now rewrite (chat_without_case db eng fs groq now message context
                     (Some 0)) by now right.
    + apply Z.eqb_neq in Hz. apply select_case_none in Hid.
      unfold chat_outcome.
      next_call fs H; [| next_call fs H ]; run_more;
        cbn [ChatRequest.case_id]; rewrite Hz, ?Hid;
        change (Main.full_prompt EmptyString
                  (ChatRequest.mk message None context))
          with (Main.full_prompt EmptyString
                  (ChatRequest.mk message (Some id) context));
        destruct (groq _); reflexivity.
Qed.

Lemma chat_with_ai_without_case_witness :
  healthy []
  /\ case_exists sample_db 9 = false
  /\ trace (snd (Main.chat_with_ai sample_groq sample_engine.(current_timestamp)
                   (ChatRequest.mk "What is a lien?" (Some 0) None)
                   (request sample_db sample_engine []))) = []
  /\ fst (Main.chat_with_ai failing_groq sample_engine.(current_timestamp)
            (ChatRequest.mk "What is a lien?" (Some 9) None)
            (request sample_db sample_engine []))
     = fst (Main.chat_with_ai failing_groq sample_engine.(current_timestamp)
              (ChatRequest.mk "What is a lien?" None None)
              (request sample_db sample_engine [])).
Proof.
  split; [exact healthy_nil |]. split; [reflexivity |].
  split.
  - destruct (chat_with_ai_without_case sample_db sample_engine []
                sample_groq sample_engine.(current_timestamp)
                "What is a lien?" None 9 healthy_nil eq_refl) as [A _].
    exact (proj1 (A (Some 0) (or_intror eq_refl))).
  - exact (proj2 (chat_with_ai_without_case sample_db sample_engine []
                    failing_groq sample_engine.(current_timestamp)
                    "What is a lien?" None 9 healthy_nil eq_refl)).
Defined.

(** X19. The health check never raises and never touches the store: it
    answers [database: "connected"] when the connection attempt went
    through, closing the connection it got, and [database: "disconnected"]
    when the attempt failed (both entry points). *)
Theorem health_check_reports_connection :
  forall db eng fs now,
    (fst (Main.health_check now (request db eng fs))
     = Return (Health.mk "running"
                 (match fs with
                  | Some _ :: _ => "disconnected"
                  | _ => "connected"
                  end)
                 "Groq (Llama 3.3 70B)" (Py.isoformat now))
     /\ trace (snd (Main.health_check now (request db eng fs)))
        = match fs with
          | Some _ :: _ => [Connect]
          | _ => [Connect; Close]
          end)
    /\ App.health_check now (request db eng fs)
       = Main.health_check now (request db eng fs).
Proof.
  intros db eng fs now. split; [| reflexivity].
  any_call fs; run_more; split; reflexivity.
Qed.

(** X20. For every query, wildcards or not, with a healthy driver
    [search_cases] returns the summaries of stored cases, each at most as
    often as it is stored, the latest creation timestamp first, and never a
    case whose title, client name, lawyer name and case type are all NULL. *)
Theorem search_cases_any_query :
  forall db eng fs query,
    healthy fs ->
    exists rows rest,
      fst (Main.search_cases query (request db eng fs))
      = Return (map Main.summary rows)
      /\ Permutation (rows ++ rest) (CASES db)
      /\ Sorted not_older rows
      /\ Forall (fun r => cases.case_title r <> None
                          \/ cases.client_name r <> None
                          \/ cases.lawyer_name r <> None
                          \/ cases.case_type r <> None) rows.
Proof.
  intros db eng fs query H.
  set (p := fun r => is_true (Sql.search_where ("%" ++ query ++ "%") r)).
  destruct (order_by_desc_spec cases.created_at (filter p (CASES db)))
    as [S P].
  exists (ORDER_BY_DESC cases.created_at (filter p (CASES db))),
         (filter (fun r => negb (p r)) (CASES db)).
  split; [| split; [| split]].
  - next_call fs H; [| next_call fs H ]; run; reflexivity.
  - rewrite <- P. apply filter_split.
  - exact S.
  - apply Forall_forall. intros r I.
    apply (Permutation_in r (Permutation_sym P)) in I.
    apply filter_In in I. destruct I as [_ I]. unfold p in I.
    unfold Sql.search_where in I.
    destruct (cases.case_title r); [left; discriminate |].
    destruct (cases.client_name r); [right; left; discriminate |].
    destruct (cases.lawyer_name r); [right; right; left; discriminate |].
    destruct (cases.case_type r); [right; right; right; discriminate |].
    discriminate I.
Qed.

Lemma search_cases_any_query_witness :
  healthy []
  /\ exists rows rest,
       fst (Main.search_cases "%" (request sample_db sample_engine []))
       = Return (map Main.summary rows)
       /\ Permutation (rows ++ rest) (CASES sample_db)
       /\ Sorted not_older rows
       /\ Forall (fun r => cases.case_title r <> None
                           \/ cases.client_name r <> None
                           \/ cases.lawyer_name r <> None
                           \/ cases.case_type r <> None) rows.
Proof.
  split; [exact healthy_nil |].
  exact (search_cases_any_query sample_db sample_engine [] "%" healthy_nil).
Defined.

(** X21. Upload, then list: after an upload that returned, the documents of
    the case (healthy driver) include one with the hash returned, under the
    name and the type given at the upload. *)
Theorem upload_then_get_documents :
  forall db eng fs1 fs2 id name type uploader content r w1,
    Main.upload_document id name type uploader content (request db eng fs1)
    = (Return r, w1) ->
    healthy fs2 ->
    exists listed,
      fst (Main.get_documents id (request (committed w1) (engine w1) fs2))
      = Return listed
      /\ exists x,
           In x listed
           /\ Document.document_hash x = Some (Uploaded.document_hash r)
           /\ Document.document_name x = Some name
           /\ Document.document_type x = Some type
           /\ Document.uploaded_by x = Some uploader.
Proof.
  intros db eng fs1 fs2 id name type uploader content r w1 U H.
  apply upload_returns_row in U. destruct U as [Hr [_ [_ [_ Hw]]]].
  set (p := fun x => is_true (eq_number (documents.case_id x) id)).
  destruct (order_by_desc_spec documents.uploaded_at
              (filter p (DOCUMENTS (committed w1)))) as [_ P].
  exists (map Main.document
            (ORDER_BY_DESC documents.uploaded_at
               (filter p (DOCUMENTS (committed w1))))).
  split.
  - next_call fs2 H; [| next_call fs2 H ]; run_more; reflexivity.
  - eexists (Main.document _). split.
    + apply in_map. apply (Permutation_in _ P).
      apply filter_In. split.
      * rewrite Hw. cbn [DOCUMENTS]. apply in_app_iff. right. now left.
      * unfold p. cbn. now rewrite Z.eqb_refl.
    + rewrite Hr. cbn. auto.
Qed.

Lemma upload_then_get_documents_witness :
  exists r w1,
    Main.upload_document 2 "invoice.pdf" "pdf" "Ann Lee"
      (list_byte_of_string "invoice 17")
      (request sample_db sample_engine []) = (Return r, w1)
    /\ healthy []
    /\ exists listed,
         fst (Main.get_documents 2 (request (committed w1) (engine w1) []))
         = Return listed
         /\ exists x,
              In x listed
              /\ Document.document_hash x = Some (Uploaded.document_hash r)
              /\ Document.document_name x = Some "invoice.pdf"
              /\ Document.document_type x = Some "pdf"
              /\ Document.uploaded_by x = Some "Ann Lee".
Proof.
  eexists. eexists. split; [vm_compute; reflexivity |].
  split; [exact healthy_nil |].
  apply (upload_then_get_documents sample_db sample_engine [] [] 2
           "invoice.pdf" "pdf" "Ann Lee" (list_byte_of_string "invoice 17"));
    [vm_compute; reflexivity | exact healthy_nil].
Defined.

(** ** More round trips *)

Lemma update_returns db eng fs id (u : CaseUpdate.t) a w :
  Main.update_case id u (request db eng fs) = (Return a, w) ->
  committed w
  = mk_tables
      (map (fun r => if cases.case_id r =? id then Sql.set_case u r else r)
           (CASES db))
      (DOCUMENTS db) (HEARINGS db).
Proof.
  calls3 fs; run; try discriminate;
    intros E; inversion E; subst; clear E; reflexivity.
Qed.

Lemma select_after_update u id l :
  filter (fun r => cases.case_id r =? id)
         (map (fun r => if cases.case_id r =? id then Sql.set_case u r else r) l)
  = map (Sql.set_case u) (filter (fun r => cases.case_id r =? id) l).
Proof.
  induction l as [| r l IH]; cbn [map filter]; auto.
  destruct (cases.case_id r =? id) eqn:E.
  - cbn [Sql.set_case cases.case_id]. rewrite E. cbn [map]. now rewrite IH.
  - rewrite E. exact IH.
Qed.

(** X22. Full update, then fetch: after a full update of a stored case that
    returned, fetching the case (healthy driver) gives the eight fields of
    the update and, for the status, the wallets, the transaction reference
    and the creation time, what a row of that case held before. *)
Theorem update_then_get :
  forall db eng fs1 fs2 id (u : CaseUpdate.t) a w1,
    Main.update_case id u (request db eng fs1) = (Return a, w1) ->
    healthy fs2 ->
    case_exists db id = true ->
    exists row,
      In row (CASES db) /\ cases.case_id row = id
      /\ fst (Main.get_case id (request (committed w1) (engine w1) fs2))
         = Return (CaseData.mk id
                     (Some (CaseUpdate.case_title u))
                     (Some (CaseUpdate.client_name u))
                     (Some (CaseUpdate.client_email u))
                     (Some (CaseUpdate.client_address u))
                     (Some (CaseUpdate.lawyer_name u))
                     (Some (CaseUpdate.lawyer_email u))
                     (Some (CaseUpdate.case_type u))
                     (Some (CaseUpdate.description u))
                     (cases.client_wallet row) (cases.lawyer_wallet row)
                     (cases.blockchain_tx row) (cases.status row)
                     (option_map Py.isoformat (cases.created_at row))).
Proof.
  intros db eng fs1 fs2 id u a w1 U H Hid.
  apply update_returns in U.
  apply select_case_some in Hid. destruct Hid as [row [rest [F [I E]]]].
  exists row. split; [exact I |]. split; [exact E |].
  rewrite U.
  next_call fs2 H; [| next_call fs2 H ]; run; cbn [CASES];
    rewrite select_after_update, F; cbn [map Sql.set_case];
    cbn; now rewrite E.
Qed.

Lemma update_then_get_witness :
  exists a w1,
    Main.update_case 1 sample_update (request sample_db sample_engine [])
    = (Return a, w1)
    /\ healthy []
    /\ case_exists sample_db 1 = true
    /\ exists d,
         fst (Main.get_case 1 (request (committed w1) (engine w1) []))
         = Return d
         /\ CaseData.case_title d = Some "Land dispute (appeal)"
         /\ CaseData.status d = Some "Active".
Proof.
  eexists. eexists. split; [vm_compute; reflexivity |].
  split; [exact healthy_nil |]. split; [reflexivity |].
  assert (Main.update_case 1 sample_update (request sample_db sample_engine [])
          = (Return (Ack.mk true "Case updated successfully"),
             snd (Main.update_case 1 sample_update
                    (request sample_db sample_engine [])))) as U
    by (vm_compute; reflexivity).
  destruct (update_then_get sample_db sample_engine [] [] 1 sample_update
              _ _ U healthy_nil eq_refl) as [row [Ir [Er R]]].
  destruct Ir as [<- | [<- | [<- | []]]]; try discriminate Er.
  eexists. split; [exact R |]. split; reflexivity.
Defined.

Lemma filter_keeps_all {A} (p : A -> bool) l :
  (forall x, In x l -> p x = true) -> filter p l = l.
Proof.
  induction l as [| x l IH]; cbn [filter]; auto. intros K.
  rewrite (K x) by now left. rewrite IH; auto. intros y I. apply K. now right.
Qed.

(** X23. Deleting a case that is not stored reports success all the same
    (healthy driver, either entry point): no 404, and, the tables having the
    integrity of the schema, nothing is changed. *)
Theorem delete_of_missing_case_succeeds :
  forall db eng fs id,
    healthy fs ->
    integrity db ->
    case_exists db id = false ->
    (fst (Main.delete_case id (request db eng fs)) = Return success_of_delete
     /\ committed (snd (Main.delete_case id (request db eng fs))) = db)
    /\ (fst (App.delete_case id (request db eng fs)) = Return success_of_delete
        /\ committed (snd (App.delete_case id (request db eng fs))) = db).
Proof.
  intros db eng fs id H [_ [_ [_ [_ [F1 F2]]]]] Hid.
  assert (forall h, In h (HEARINGS db) -> hearings.case_id h <> Some id) as Nh.
  { intros h I E. rewrite (F2 h id I E) in Hid. discriminate. }
  assert (forall d, In d (DOCUMENTS db) -> documents.case_id d <> Some id)
    as Nd.
  { intros d I E. rewrite (F1 d id I E) in Hid. discriminate. }
  assert (filter (fun r => negb (cases.case_id r =? id)) (CASES db) = CASES db)
    as Ec.
  { apply filter_keeps_all. intros r I. apply Bool.negb_true_iff, Z.eqb_neq.
    now apply (proj1 (case_exists_false_iff db id) Hid). }
  assert (filter (fun d => negb (is_true (eq_number (documents.case_id d) id)))
                 (DOCUMENTS db) = DOCUMENTS db) as Ed.
  { apply filter_keeps_all. intros d I. apply not_eq_number_iff. auto. }
  assert (filter (fun h => negb (is_true (eq_number (hearings.case_id h) id)))
                 (HEARINGS db) = HEARINGS db) as Eh.
  { apply filter_keeps_all. intros h I. apply not_eq_number_iff. auto. }
  split.
  - destruct (main_delete_healthy db eng fs id H) as [R [C _]].
    split; [exact R |]. rewrite C, Ec, Ed, Eh. apply tables_eta.
  - destruct (app_delete_healthy db eng fs id H Nh) as [R [C _]].
    split; [exact R |]. rewrite C, Ec, Ed. apply tables_eta.
Qed.

Lemma delete_of_missing_case_succeeds_witness :
  healthy []
  /\ integrity sample_db
  /\ case_exists sample_db 9 = false
  /\ fst (Main.delete_case 9 (request sample_db sample_engine []))
     = Return success_of_delete
  /\ committed (snd (Main.delete_case 9 (request sample_db sample_engine [])))
     = sample_db.
Proof.
  split; [exact healthy_nil |]. split; [exact integrity_sample_db |].
  split; [reflexivity |].
  exact (proj1 (delete_of_missing_case_succeeds sample_db sample_engine [] 9
                  healthy_nil integrity_sample_db eq_refl)).
Defined.

Lemma unique_hash_owner l d d' h :
  NoDup (non_null (map documents.document_hash l)) ->
  In d l -> In d' l ->
  documents.document_hash d = Some h ->
  documents.document_hash d' = Some h ->
  d' = d.
Proof.
  induction l as [| x l IH]; [intros _ [] |].
  cbn [map]. unfold non_null. cbn [flat_map].
  intros N I I' E E'.
  assert (forall y, In y l -> documents.document_hash y = Some h ->
                    In h (non_null (map documents.document_hash l))) as Inh.
  { intros y J Ey. apply in_non_null, in_map_iff. eauto. }
  destruct I as [-> | I], I' as [-> | I']; auto.
  - rewrite E in N. cbn [app] in N. inversion N; subst.
    exfalso. apply H1. eapply Inh; eauto.
  - rewrite E' in N. cbn [app] in N. inversion N; subst.
    exfalso. apply H1. eapply Inh; eauto.
  - apply IH; auto.
    destruct (documents.document_hash x); cbn [app] in N; auto.
    now inversion N.
Qed.

(** X24. Delete, then verify: the tables having the integrity of the
    schema, after a delete by [main.py] of a case that returned, the hash of
    a document of that case is no longer verified (healthy driver): the
    answer is [verified: False]. *)
Theorem delete_then_verify :
  forall db eng fs1 fs2 id d h a w1,
    integrity db ->
    In d (DOCUMENTS db) ->
    documents.case_id d = Some id ->
    documents.document_hash d = Some h ->
    Main.delete_case id (request db eng fs1) = (Return a, w1) ->
    healthy fs2 ->
    fst (Main.verify_document (DocumentVerify.mk h)
           (request (committed w1) (engine w1) fs2))
    = Return (Verification.NotVerified "Document not found in blockchain").
Proof.
  intros db eng fs1 fs2 id d h a w1 [_ [_ [_ [N4 _]]]] I Ec Eh U H.
  apply main_delete_returns in U. destruct U as [_ [_ [Cd _]]].
  assert (hash_exists (committed w1) h = false) as Hno.
  { destruct (hash_exists (committed w1) h) eqn:K; auto.
    apply existsb_exists in K. destruct K as [d' [I' E']].
    apply hash_matches_iff in E'. apply Cd in I'. destruct I' as [I' Ne].
    rewrite (unique_hash_owner _ d d' h N4 I I' Eh E') in Ne. contradiction. }
  apply filter_none in Hno. revert Hno.
  generalize (committed w1) as t, (engine w1) as e. intros t e Hno.
  next_call fs2 H; [| next_call fs2 H ]; run_more;
    cbn [DocumentVerify.document_hash]; now rewrite Hno.
Qed.

Lemma delete_then_verify_witness :
  exists a w1,
    integrity sample_db
    /\ In sample_document (DOCUMENTS sample_db)
    /\ documents.case_id sample_document = Some 1
    /\ Main.delete_case 1 (request sample_db sample_engine []) = (Return a, w1)
    /\ healthy []
    /\ fst (Main.verify_document
              (DocumentVerify.mk
                 "ba7816bf8f01cfea414140de5dae2223b00361a396177a9cb410ff61f20015ad")
              (request (committed w1) (engine w1) []))
       = Return (Verification.NotVerified "Document not found in blockchain").
Proof.
  eexists. eexists. split; [exact integrity_sample_db |].
  split; [now left |]. split; [reflexivity |].
  split; [vm_compute; reflexivity |]. split; [exact healthy_nil |].
  eapply (delete_then_verify sample_db sample_engine [] [] 1 sample_document);
    [ exact integrity_sample_db | now left | reflexivity | reflexivity
    | vm_compute; reflexivity | exact healthy_nil ].
Defined.
